(** * Captain's Log: the transcript projection of [tinker.ipynb]

    The only data transformation of the repository is the notebook cell

<<
    transcript_df = pd.DataFrame(result['segments'])
    transcript_df = transcript_df[['start', 'end', 'text']]
>>

    where [result] is what [model.transcribe] returned.  This file embeds
    that cell: the Python values it handles, the two pandas operations it
    calls (the [DataFrame] constructor on a list of records and
    [__getitem__] with a list of labels), the exceptions they raise and the
    notebook namespace the two assignments act on.  The cells around it are
    embedded too: [result = model.transcribe(...)] with its [print], where
    the model's answer is a parameter, and [transcript_df.head()].

    The cell is embedded twice.  First on values, where a segment is the
    list of its entries and a frame the list of its columns: this is where
    what the cell computes is stated.  Then on a store of Python objects,
    where lists, dicts and frames have an identity and could be changed in
    place: this is where what the cell does to its input is stated.  The
    second run is shown to compute what the first does. *)

From Stdlib Require Import List String ZArith Bool Arith Lia.
From Stdlib Require Import PrimFloat SpecFloat FloatOps.
Import ListNotations.
Set Warnings "-register-all".
Local Open Scope string_scope.
Local Open Scope list_scope.

(* ================================================================= *)
(** ** Python values, dictionaries and exceptions *)

Module Py.

(** The Python objects a whisper segment carries: [None], [int] (ids, seek
    offsets, token ids), [float] (IEEE binary64: timestamps, probabilities),
    [str] and [list]. *)
Inductive pyval : Type :=
| PyNone
| PyInt (z : Z)
| PyFloat (f : float)
| PyStr (s : string)
| PyList (l : list pyval).

(** [np.nan], the float pandas writes into a cell that has no value. *)
Definition onan : pyval := PyFloat nan.

(** [float(z)]: the binary64 nearest to the integer, for an integer within
    the range of a float; beyond it Python raises [OverflowError], which is
    outside this embedding. *)
Definition float_of_Z (z : Z) : float :=
  SF2Prim (binary_normalize prec emax z 0 false).

(** A [dict] with string keys, in insertion order.  Python keeps one entry
    per key; [dict_get] reads the first one, so nothing below depends on
    the list being duplicate free. *)
Definition pydict : Type := list (string * pyval).

Fixpoint dict_get (d : pydict) (k : string) : option pyval :=
  match d with
  | [] => None
  | (k', v) :: d' => if String.eqb k k' then Some v else dict_get d' k
  end.

Definition dict_keys (d : pydict) : list string := map fst d.

(** [k in d] *)
Definition dict_contains (d : pydict) (k : string) : bool :=
  match dict_get d k with Some _ => true | None => false end.

(** The exceptions the cell can raise. *)
Inductive pyerror : Type :=
| NameError (name : string)
    (* name 'result' is not defined *)
| TypeError
    (* 'NoneType' object is not subscriptable *)
| KeyError (missing : list string).
    (* "None of [...] are in the [columns]" / "[...] not in index" *)

(** A computation that returns a value or raises. *)
Inductive exc (A : Type) : Type :=
| Return (a : A)
| Raise (e : pyerror).
Arguments Return {A} a.
Arguments Raise {A} e.

Definition bind {A B : Type} (c : exc A) (k : A -> exc B) : exc B :=
  match c with
  | Return a => k a
  | Raise e => Raise e
  end.

Definition raises {A : Type} (c : exc A) : Prop := exists e, c = Raise e.

End Py.
Import Py.

Notation "x <- c ;; k" := (bind c (fun x => k))
  (at level 61, c at next level, right associativity).

(* ================================================================= *)
(** ** The pandas operations the cell calls *)

Module Pandas.

(** A frame is stored by columns: the labels, the number of rows (the
    length of its [RangeIndex]) and one array of cells per label. *)
Record DataFrame : Type := mkDataFrame {
  columns : list string;
  index : nat;
  arrays : list (list pyval)
}.

Definition mem (k : string) (l : list string) : bool :=
  existsb (String.eqb k) l.

(** [lib.fast_unique_multiple_list_gen(gen, sort=False)]: the labels of all
    records, each once, in order of first appearance. *)
Definition uniques_append (uniques : list string) (val : string) : list string :=
  if mem val uniques then uniques else uniques ++ [val].

Definition fast_unique_multiple_list_gen (gen : list (list string)) : list string :=
  fold_left (fun uniques buf => fold_left uniques_append buf uniques) gen [].

(** [lib.dicts_to_array(dicts, columns)], read by columns (the constructor
    goes on with [content.T]): a record that has no entry for a label gets
    [np.nan] there. *)
Definition dict_cell (col : string) (row : pydict) : pyval :=
  match dict_get row col with
  | Some v => v
  | None => onan
  end.

Definition dicts_to_array_T (dicts : list pydict) (columns : list string)
  : list (list pyval) :=
  map (fun col => map (dict_cell col) dicts) columns.

(** [lib.maybe_convert_objects] on one column of objects (pandas 2, numpy
    backend), for the value kinds of [pyval].  The loop looks at the objects
    from the first on and records what it has seen; a [str], a [list], or,
    as long as no [None] has come by, an int that no 64-bit integer holds
    (or a negative int together with one above [INT64_MAX]) makes the column
    an object column and ends the loop. *)
Inductive tag : Type :=
| TNull                (* None *)
| TNaN                 (* a float that is NaN *)
| TFloat               (* any other float *)
| TInt (z : Z)         (* an int *)
| TObject.             (* a str, a list: anything else *)

Definition classify (v : pyval) : tag :=
  match v with
  | PyNone => TNull
  | PyFloat f => if PrimFloat.is_nan f then TNaN else TFloat
  | PyInt z => TInt z
  | PyStr _ | PyList _ => TObject
  end.

Record Seen : Type := mkSeen {
  null_ : bool;
  nan_ : bool;
  float_ : bool;
  int_ : bool;
  uint_ : bool;
  sint_ : bool;
  object_ : bool
}.

Definition seen_nothing : Seen :=
  mkSeen false false false false false false false.

Definition INT64_MIN : Z := - 2 ^ 63.
Definition INT64_MAX : Z := 2 ^ 63 - 1.
Definition UINT64_MAX : Z := 2 ^ 64 - 1.

(** [Seen.saw_int] *)
Definition saw_int (seen : Seen) (val : Z) : Seen :=
  mkSeen (null_ seen) (nan_ seen) (float_ seen) (int_ seen)
         (uint_ seen || ((INT64_MAX <? val) && (val <=? UINT64_MAX))%Z)
         (sint_ seen || ((INT64_MIN <=? val) && (val <? 0))%Z)
         (object_ seen).

Fixpoint scan (seen : Seen) (tags : list tag) : Seen :=
  match tags with
  | [] => seen
  | TNull :: rest =>
      scan (mkSeen true (nan_ seen) (float_ seen) (int_ seen)
                   (uint_ seen) (sint_ seen) (object_ seen)) rest
  | TNaN :: rest =>
      scan (mkSeen (null_ seen) true (float_ seen) (int_ seen)
                   (uint_ seen) (sint_ seen) (object_ seen)) rest
  | TFloat :: rest =>
      scan (mkSeen (null_ seen) (nan_ seen) true (int_ seen)
                   (uint_ seen) (sint_ seen) (object_ seen)) rest
  | TInt val :: rest =>
      let seen := mkSeen (null_ seen) (nan_ seen) (float_ seen) true
                         (uint_ seen) (sint_ seen) (object_ seen) in
      if null_ seen then scan seen rest
      else
        let seen := saw_int seen val in
        if (uint_ seen && sint_ seen)
           || (UINT64_MAX <? val)%Z || (val <? INT64_MIN)%Z
        then mkSeen (null_ seen) (nan_ seen) (float_ seen) (int_ seen)
                    (uint_ seen) (sint_ seen) true
        else scan seen rest
  | TObject :: _ =>
      mkSeen (null_ seen) (nan_ seen) (float_ seen) (int_ seen)
             (uint_ seen) (sint_ seen) true
  end.

(** Whether the loop's result is the [float64] array: never for an object
    column; with a [None] or a NaN, as soon as there is a float, an int or a
    NaN; without them, when there is a float.  Otherwise the values stay as
    they are: ints only ([int64] or [uint64]), [None] only, or nothing. *)
Definition becomes_float64 (tags : list tag) : bool :=
  let seen := scan seen_nothing tags in
  if object_ seen then false
  else if null_ seen || nan_ seen
       then float_ seen || int_ seen || nan_ seen
       else float_ seen.

(** Going to [float64] turns an int into the float of the same value and
    [None] into NaN. *)
Definition to_float64 (v : pyval) : pyval :=
  match v with
  | PyInt z => PyFloat (float_of_Z z)
  | PyNone => onan
  | _ => v
  end.

Definition maybe_convert_objects (objects : list pyval) : list pyval :=
  if becomes_float64 (map classify objects)
  then map to_float64 objects
  else objects.

(** [pd.DataFrame(data)] for a list of records. *)
Definition pd_DataFrame (data : list pydict) : DataFrame :=
  let columns := fast_unique_multiple_list_gen (map dict_keys data) in
  {| columns := columns;
     index := List.length data;
     arrays := map maybe_convert_objects (dicts_to_array_T data columns) |}.

(** The array stored under a label. *)
Fixpoint lookup_column (cols : list string) (arrs : list (list pyval))
         (k : string) : option (list pyval) :=
  match cols, arrs with
  | c :: cols', a :: arrs' =>
      if String.eqb k c then Some a else lookup_column cols' arrs' k
  | _, _ => None
  end.

Definition column (df : DataFrame) (k : string) : list pyval :=
  match lookup_column (columns df) (arrays df) k with
  | Some a => a
  | None => []
  end.

(** The labels [Index._raise_if_missing] names in its [KeyError]: the whole
    key when none of its labels is a column ("None of [...] are in the
    [columns]"), else the missing labels, each once ("[...] not in
    index"). *)
Definition not_found (columns key : list string) : list string :=
  let missing := filter (fun k => negb (mem k columns)) key in
  if (List.length missing =? List.length key)%nat
  then key
  else fold_left uniques_append missing [].

(** [df[key]] for a list of labels: [KeyError] naming the labels that are
    not columns, else the frame of the requested columns in the requested
    order, rows untouched. *)
Definition getitem (df : DataFrame) (key : list string) : exc DataFrame :=
  match filter (fun k => negb (mem k (columns df))) key with
  | [] => Return {| columns := key;
                    index := index df;
                    arrays := map (column df) key |}
  | _ :: _ => Raise (KeyError (not_found (columns df) key))
  end.

(** Row [i] as the tuple of its cells, in column order, each cell as its own
    column holds it, and all rows in index order: the tuples of
    [df.itertuples(index=False, name=None)], which takes the values column
    by column and, unlike [df.iloc[i]] or [df.values], brings them to no
    common type. *)
Definition row_at (df : DataFrame) (i : nat) : list pyval :=
  map (fun a => nth i a onan) (arrays df).

Definition itertuple (df : DataFrame) (i : nat) : option (list pyval) :=
  if (i <? index df)%nat then Some (row_at df i) else None.

Definition rows (df : DataFrame) : list (list pyval) :=
  map (row_at df) (seq 0 (index df)).

(** [df.at[i, k]]: the cell of row [i] under label [k]; [None] when the frame
    has no such cell (pandas raises [KeyError] there). *)
Definition at_ (df : DataFrame) (i : nat) (k : string) : option pyval :=
  match lookup_column (columns df) (arrays df) k with
  | Some a => if (i <? index df)%nat then nth_error a i else None
  | None => None
  end.

End Pandas.
Import Pandas.

(* ================================================================= *)
(** ** The transcription result and the cell *)

(** A segment is the dict whisper builds ([id], [seek], [start], [end],
    [text], [tokens], ...); the result carries the full text and the
    segments in chronological order. *)
Definition Segment : Type := pydict.

Record TranscriptionResult : Type := mkResult {
  text : string;
  segments : list Segment
}.

Definition table_columns : list string := ["start"; "end"; "text"].

(** [result['segments']], where [result] is [None] or a transcription
    result. *)
Definition getitem_segments (result : option TranscriptionResult)
  : exc (list Segment) :=
  match result with
  | None => Raise TypeError
  | Some r => Return (segments r)
  end.

(** The two statements as one expression of [result]. *)
Definition project (result : option TranscriptionResult) : exc DataFrame :=
  segs <- getitem_segments result ;;
  let transcript_df := pd_DataFrame segs in
  getitem transcript_df table_columns.

Module Notebook.

Inductive binding (A : Type) : Type :=
| Unbound
| Bound (a : A).
Arguments Unbound {A}.
Arguments Bound {A} a.

(** The two global names the cell touches. *)
Record namespace : Type := mkNamespace {
  result : binding (option TranscriptionResult);
  transcript_df : binding DataFrame
}.

Definition set_transcript_df (ns : namespace) (df : DataFrame) : namespace :=
  {| result := result ns; transcript_df := Bound df |}.

Definition load_result (ns : namespace) : exc (option TranscriptionResult) :=
  match result ns with
  | Unbound => Raise (NameError "result")
  | Bound v => Return v
  end.

Definition load_transcript_df (ns : namespace) : exc DataFrame :=
  match transcript_df ns with
  | Unbound => Raise (NameError "transcript_df")
  | Bound v => Return v
  end.

(** [transcript_df = pd.DataFrame(result['segments'])] *)
Definition stmt1 (ns : namespace) : namespace * option pyerror :=
  match (r <- load_result ns ;; getitem_segments r) with
  | Raise e => (ns, Some e)
  | Return segs => (set_transcript_df ns (pd_DataFrame segs), None)
  end.

(** [transcript_df = transcript_df[['start', 'end', 'text']]] *)
Definition stmt2 (ns : namespace) : namespace * option pyerror :=
  match (df <- load_transcript_df ns ;; getitem df table_columns) with
  | Raise e => (ns, Some e)
  | Return df' => (set_transcript_df ns df', None)
  end.

(** Running the cell: the namespace it leaves and the exception that
    stopped it, if one did. *)
Definition run_cell (ns : namespace) : namespace * option pyerror :=
  match stmt1 ns with
  | (ns1, Some e) => (ns1, Some e)
  | (ns1, None) => stmt2 ns1
  end.

(** What a run yields: the table bound to [transcript_df], or the
    exception. *)
Definition cell_output (ns : namespace) : exc DataFrame :=
  match run_cell ns with
  | (_, Some e) => Raise e
  | (ns', None) => load_transcript_df ns'
  end.

End Notebook.

(* ================================================================= *)
(** ** Valid inputs and the row of a segment *)

Definition has_float (s : Segment) (k : string) : bool :=
  match dict_get s k with Some (PyFloat _) => true | _ => false end.

Definition has_str (s : Segment) (k : string) : bool :=
  match dict_get s k with Some (PyStr _) => true | _ => false end.

(** A segment of the data model: [start] and [end] are floats, [text] is a
    string; nothing is asked of their values or of the other entries. *)
Definition valid_segment (s : Segment) : bool :=
  has_float s "start" && has_float s "end" && has_str s "text".

Definition valid_result (r : TranscriptionResult) : Prop :=
  forallb valid_segment (segments r) = true.

(** The three values of a segment, in table order. *)
Definition segment_row (s : Segment) : list pyval :=
  map (fun k => dict_cell k s) table_columns.

(** Some segment has an entry for the field. *)
Definition carried (segs : list Segment) (k : string) : Prop :=
  exists s, In s segs /\ dict_get s k <> None.

(** The frame a successful run ends with. *)
Definition projected (segs : list Segment) : DataFrame :=
  {| columns := table_columns;
     index := List.length segs;
     arrays := map (column (pd_DataFrame segs)) table_columns |}.

(** What a cell may hold for a segment's field: the segment's value, as it
    is or taken to [float64] by the column's conversion, and NaN when the
    segment has no such entry. *)
Definition cell_of (s : Segment) (k : string) (c : pyval) : Prop :=
  match dict_get s k with
  | Some v => c = v \/ c = to_float64 v
  | None => c = onan
  end.

(** The input the specification calls invalid: no result, or a segment
    without one of the three fields. *)
Definition lacks_required_field (s : Segment) : Prop :=
  exists k, In k table_columns /\ dict_get s k = None.

Definition spec_invalid_input (res : option TranscriptionResult) : Prop :=
  res = None
  \/ exists r s, res = Some r /\ In s (segments r) /\ lacks_required_field s.

(* ================================================================= *)
(** ** Sample data *)

Module Samples.
Local Open Scope float_scope.

Definition seg (a b : float) (t : string) : Segment :=
  [("start", PyFloat a); ("end", PyFloat b); ("text", PyStr t)].

(** A segment as whisper emits it, extra entries included. *)
Definition whisper_seg (id : Z) (a b : float) (t : string) : Segment :=
  [("id", PyInt id); ("seek", PyInt 0);
   ("start", PyFloat a); ("end", PyFloat b); ("text", PyStr t);
   ("tokens", PyList [PyInt 50363; PyInt 362]);
   ("temperature", PyFloat 0); ("no_speech_prob", PyFloat 0.5)].

Definition hello_world : TranscriptionResult :=
  {| text := "hello world";
     segments := [seg 0 7 "hello"; seg 7 14 "world"] |}.

Definition apache : TranscriptionResult :=
  {| text := " Is that guy making a between there? Nope.";
     segments := [whisper_seg 3 19 21 " Is that guy making a between there?";
                  whisper_seg 4 21 22 " Nope."] |}.

Definition no_segments : TranscriptionResult :=
  {| text := ""; segments := [] |}.

(** The second segment has no [text]. *)
Definition missing_text : TranscriptionResult :=
  {| text := "hello";
     segments := [seg 0 7 "hello"; [("start", PyFloat 7); ("end", PyFloat 14)]] |}.

(** No segment has a [text]. *)
Definition no_text_at_all : TranscriptionResult :=
  {| text := "";
     segments := [[("start", PyFloat 0); ("end", PyFloat 7)]] |}.

(** Timestamps nobody validated: negative, and [end < start]. *)
Definition odd_times : TranscriptionResult :=
  {| text := "x x y";
     segments := [seg (-3) (-5) "x"; seg (-3) (-5) "x"; seg 9 2 " y "] |}.

End Samples.

(* ================================================================= *)
(** ** The display cell, frame shape and the whole notebook *)

(** [df.head(n)], which is [df.iloc[:n]]: the first [n] rows, all columns. *)
Definition head (df : DataFrame) (n : nat) : DataFrame :=
  {| columns := columns df;
     index := Nat.min n (index df);
     arrays := map (firstn n) (arrays df) |}.

(** A rectangular frame: one array per label, each with one cell per row,
    and no label twice. *)
Definition wf_frame (df : DataFrame) : Prop :=
  List.length (arrays df) = List.length (columns df)
  /\ Forall (fun a => List.length a = index df) (arrays df)
  /\ NoDup (columns df).

(** [carried], decided. *)
Definition carriedb (segs : list Segment) (k : string) : bool :=
  existsb (fun s => dict_contains s k) segs.

(** The table columns no segment has an entry for, in table order. *)
Definition uncarried (segs : list Segment) : list string :=
  filter (fun k => negb (carriedb segs k)) table_columns.

(** Two segments that agree on [start], [end] and [text]; their other
    entries and the order of their keys are free. *)
Definition same_fields (s s' : Segment) : Prop :=
  forall k, In k table_columns -> dict_get s k = dict_get s' k.

Module Session.
Import Notebook.

(** What stops a cell: an exception of the cell's own code, or whatever
    [model.transcribe] raised. *)
Inductive failure : Type :=
| Upstream (what : string)
| Python (e : pyerror).

(** The kernel: the global names and what has been printed so far. *)
Record kernel : Type := mkKernel {
  names : namespace;
  stdout : list string
}.

Definition set_result (ns : namespace) (r : TranscriptionResult) : namespace :=
  {| result := Bound (Some r); transcript_df := transcript_df ns |}.

Section Cells.

(** [model.transcribe] of the loaded model: it raises, or returns the dict
    of the full text and the segments. *)
Variable transcribe : string -> string + TranscriptionResult.

(** [print(result["text"])] *)
Definition print_text (k : kernel) : kernel * option failure :=
  match load_result (names k) with
  | Raise e => (k, Some (Python e))
  | Return None => (k, Some (Python TypeError))
  | Return (Some r) =>
      ({| names := names k; stdout := stdout k ++ [text r] |}, None)
  end.

(** The cell [result = model.transcribe(path)] followed by the print. *)
Definition transcribe_cell (path : string) (k : kernel) : kernel * option failure :=
  match transcribe path with
  | inl what => (k, Some (Upstream what))
  | inr r => print_text {| names := set_result (names k) r; stdout := stdout k |}
  end.

(** The projection cell, in the kernel. *)
Definition projection_cell (k : kernel) : kernel * option failure :=
  match run_cell (names k) with
  | (ns', None) => ({| names := ns'; stdout := stdout k |}, None)
  | (ns', Some e) => ({| names := ns'; stdout := stdout k |}, Some (Python e))
  end.

(** The cell [transcript_df.head()]: the frame it displays. *)
Definition head_cell (k : kernel) : failure + DataFrame :=
  match load_transcript_df (names k) with
  | Raise e => inl (Python e)
  | Return df => inr (head df 5)
  end.

(** The three cells top to bottom, stopping at the first one that fails. *)
Definition run_all (path : string) (k : kernel) : kernel * (failure + DataFrame) :=
  match transcribe_cell path k with
  | (k1, Some f) => (k1, inl f)
  | (k1, None) =>
      match projection_cell k1 with
      | (k2, Some f) => (k2, inl f)
      | (k2, None) => (k2, head_cell k2)
      end
  end.

End Cells.

End Session.

(* ================================================================= *)
(** ** The cell on a store of Python objects *)

(** Python's lists, dicts and frames are objects with an identity that can be
    changed in place, and several names, entries or cells may refer to the
    same one.  Here the cell runs on a store of such objects. *)
Module Heap.

Definition loc : Type := nat.

(** What a name, a dict entry, a list item or a cell of an object column
    holds: an immutable object, given by its value, or a reference to a
    list, a dict or a frame. *)
Inductive hval : Type :=
| HNone
| HInt (z : Z)
| HFloat (f : float)
| HStr (s : string)
| HRef (l : loc).

Inductive object : Type :=
| OList (items : list hval)
| ODict (entries : list (string * hval))
| OFrame (columns : list string) (index : nat) (arrays : list (list hval)).

(** The objects alive, each at its location; a new object goes to the end. *)
Definition store : Type := list object.

Definition deref (st : store) (l : loc) : option object := nth_error st l.

Definition alloc (st : store) (o : object) : store * loc :=
  (st ++ [o], List.length st).

(** A step returns a value, raises, or is [Stuck]: it met a reference to no
    object, or a use of pandas other than the two the cell makes (a frame
    from a list of dicts, a selection by a list of labels). *)
Inductive outcome (A : Type) : Type :=
| Done (st : store) (a : A)
| Raised (st : store) (e : pyerror)
| Stuck.
Arguments Done {A} st a.
Arguments Raised {A} st e.
Arguments Stuck {A}.

Definition and_then {A B : Type} (c : outcome A) (k : store -> A -> outcome B)
  : outcome B :=
  match c with
  | Done st a => k st a
  | Raised st e => Raised st e
  | Stuck => Stuck
  end.


Fixpoint h_entry (d : list (string * hval)) (k : string) : option hval :=
  match d with
  | [] => None
  | (k', v) :: d' => if String.eqb k k' then Some v else h_entry d' k
  end.

(** [v[key]] for a string key. *)
Definition subscript (st : store) (v : hval) (key : string) : outcome hval :=
  match v with
  | HRef l =>
      match deref st l with
      | Some (ODict d) =>
          match h_entry d key with
          | Some x => Done st x
          | None => Raised st (KeyError [key])
          end
      | Some (OList _) => Raised st TypeError
          (* list indices must be integers or slices, not str *)
      | Some (OFrame _ _ _) => Stuck
      | None => Stuck
      end
  | _ => Raised st TypeError
      (* 'NoneType' object is not subscriptable, and the like *)
  end.

(** The dicts a list of references refers to. *)
Fixpoint h_records (st : store) (items : list hval)
  : option (list (list (string * hval))) :=
  match items with
  | [] => Some []
  | HRef l :: rest =>
      match deref st l, h_records st rest with
      | Some (ODict d), Some ds => Some (d :: ds)
      | _, _ => None
      end
  | _ :: _ => None
  end.

Definition h_cell (col : string) (row : list (string * hval)) : hval :=
  match h_entry row col with
  | Some v => v
  | None => HFloat nan
  end.

Definition h_classify (v : hval) : tag :=
  match v with
  | HNone => TNull
  | HFloat f => if PrimFloat.is_nan f then TNaN else TFloat
  | HInt z => TInt z
  | HStr _ | HRef _ => TObject
  end.

Definition h_to_float64 (v : hval) : hval :=
  match v with
  | HInt z => HFloat (float_of_Z z)
  | HNone => HFloat nan
  | _ => v
  end.

Definition h_maybe_convert_objects (cells : list hval) : list hval :=
  if becomes_float64 (map h_classify cells)
  then map h_to_float64 cells
  else cells.

(** The frame [pd.DataFrame(data)] builds for a list of dicts: it reads the
    list and the dicts and keeps, in its object columns, the references
    their entries hold.  [pd.DataFrame(None)] is the empty frame. *)
Definition frame_of (st : store) (data : hval) : option object :=
  match data with
  | HNone => Some (OFrame [] 0 [])
  | HRef l =>
      match deref st l with
      | Some (OList items) =>
          match h_records st items with
          | Some dicts =>
              let columns :=
                fast_unique_multiple_list_gen (map (map fst) dicts) in
              Some (OFrame columns (List.length items)
                      (map (fun col =>
                              h_maybe_convert_objects (map (h_cell col) dicts))
                           columns))
          | None => None
          end
      | _ => None
      end
  | _ => None
  end.

Definition h_DataFrame (st : store) (data : hval) : outcome hval :=
  match frame_of st data with
  | Some frame => let (st', l) := alloc st frame in Done st' (HRef l)
  | None => Stuck
  end.

Fixpoint h_lookup_column (cols : list string) (arrs : list (list hval))
         (k : string) : option (list hval) :=
  match cols, arrs with
  | c :: cols', a :: arrs' =>
      if String.eqb k c then Some a else h_lookup_column cols' arrs' k
  | _, _ => None
  end.

Definition h_column (cols : list string) (arrs : list (list hval))
           (k : string) : list hval :=
  match h_lookup_column cols arrs k with
  | Some a => a
  | None => []
  end.

(** The frame [df[key]] builds from a frame, or the [KeyError]. *)
Definition selection (frame : object) (key : list string) : option (exc object) :=
  match frame with
  | OFrame cols idx arrs =>
      match filter (fun k => negb (mem k cols)) key with
      | [] => Some (Return (OFrame key idx (map (h_column cols arrs) key)))
      | _ :: _ => Some (Raise (KeyError (not_found cols key)))
      end
  | _ => None
  end.

Definition h_getitem (st : store) (df : hval) (key : list string)
  : outcome hval :=
  match df with
  | HRef l =>
      match deref st l with
      | Some frame =>
          match selection frame key with
          | Some (Return frame') =>
              let (st', l') := alloc st frame' in Done st' (HRef l')
          | Some (Raise e) => Raised st e
          | None => Stuck
          end
      | None => Stuck
      end
  | _ => Stuck
  end.

(** The two statements on the value of [result]. *)
Definition h_project (st : store) (result : hval) : outcome hval :=
  and_then (subscript st result "segments") (fun st1 segs =>
  and_then (h_DataFrame st1 segs) (fun st2 transcript_df =>
  h_getitem st2 transcript_df table_columns)).

(** *** What a store holds, as values *)

(** The value a store gives to what a name holds: lists are followed to
    their items. *)
Inductive reads (st : store) : hval -> pyval -> Prop :=
| reads_None : reads st HNone PyNone
| reads_Int z : reads st (HInt z) (PyInt z)
| reads_Float f : reads st (HFloat f) (PyFloat f)
| reads_Str s : reads st (HStr s) (PyStr s)
| reads_List l items vs :
    deref st l = Some (OList items) ->
    Forall2 (reads st) items vs ->
    reads st (HRef l) (PyList vs).

Definition reads_entry (st : store) (e : string * hval) (e' : string * pyval)
  : Prop :=
  fst e = fst e' /\ reads st (snd e) (snd e').

Definition reads_segment (st : store) (item : hval) (s : Segment) : Prop :=
  exists l d, item = HRef l /\ deref st l = Some (ODict d)
              /\ Forall2 (reads_entry st) d s.

Definition reads_segments (st : store) (v : hval) (segs : list Segment) : Prop :=
  exists l items, v = HRef l /\ deref st l = Some (OList items)
                  /\ Forall2 (reads_segment st) items segs.

(** [result] is [None], or the dict of a transcription result. *)
Definition reads_result (st : store) (v : hval)
           (res : option TranscriptionResult) : Prop :=
  match res with
  | None => v = HNone
  | Some r =>
      exists l d sv, v = HRef l /\ deref st l = Some (ODict d)
                     /\ h_entry d "text" = Some (HStr (text r))
                     /\ h_entry d "segments" = Some sv
                     /\ reads_segments st sv (segments r)
  end.

Definition reads_frame (st : store) (v : hval) (df : DataFrame) : Prop :=
  exists l arrs, v = HRef l
                 /\ deref st l = Some (OFrame (columns df) (index df) arrs)
                 /\ Forall2 (Forall2 (reads st)) arrs (arrays df).

End Heap.

Module HeapSamples.
Import Heap.

(** The result of [Samples.apache] laid out as objects.  Both segments refer
    to one and the same list of tokens. *)
Definition apache_store : store :=
  [ OList [HInt 50363; HInt 362];
    ODict [("id", HInt 3); ("seek", HInt 0);
           ("start", HFloat 19%float); ("end", HFloat 21%float);
           ("text", HStr " Is that guy making a between there?");
           ("tokens", HRef 0);
           ("temperature", HFloat 0%float); ("no_speech_prob", HFloat 0.5%float)];
    ODict [("id", HInt 4); ("seek", HInt 0);
           ("start", HFloat 21%float); ("end", HFloat 22%float);
           ("text", HStr " Nope.");
           ("tokens", HRef 0);
           ("temperature", HFloat 0%float); ("no_speech_prob", HFloat 0.5%float)];
    OList [HRef 1; HRef 2];
    ODict [("text", HStr " Is that guy making a between there? Nope.");
           ("segments", HRef 3); ("language", HStr "en")] ].

Definition apache_result : hval := HRef 4.

(** A result without segments. *)
Definition silent_store : store :=
  [ OList [];
    ODict [("text", HStr ""); ("segments", HRef 0); ("language", HStr "en")] ].

Definition silent_result : hval := HRef 1.

End HeapSamples.

(* ================================================================= *)
(** ** Lemmas on the pandas operations *)

Section Labels.

Lemma mem_In (k : string) (l : list string) : mem k l = true <-> In k l.
Proof.
  unfold mem. rewrite existsb_exists. split.
  - intros [x [Hx Heq]]. apply String.eqb_eq in Heq. now subst.
  - intros H. exists k. split; [assumption | apply String.eqb_refl].
Qed.

Lemma mem_false (k : string) (l : list string) : mem k l = false <-> ~ In k l.
Proof.
  rewrite <- mem_In. destruct (mem k l); split; congruence.
Qed.

Lemma uniques_append_In (k v : string) (u : list string) :
  In k (uniques_append u v) <-> In k u \/ k = v.
Proof.
  unfold uniques_append. destruct (mem v u) eqn:Hm.
  - apply mem_In in Hm. split; [tauto | intros [H | ->]; assumption].
  - rewrite in_app_iff. simpl. split; intros [H | H]; auto.
    destruct H as [-> | []]. now right.
Qed.

Lemma fold_uniques_In (k : string) (buf u : list string) :
  In k (fold_left uniques_append buf u) <-> In k u \/ In k buf.
Proof.
  revert u. induction buf as [| v buf IH]; intros u; simpl.
  - tauto.
  - rewrite IH, uniques_append_In. intuition (subst; auto).
Qed.

Lemma fold_gen_In (k : string) (gen : list (list string)) (u : list string) :
  In k (fold_left (fun uniques buf => fold_left uniques_append buf uniques) gen u)
  <-> In k u \/ exists buf, In buf gen /\ In k buf.
Proof.
  revert u. induction gen as [| b gen IH]; intros u; simpl.
  - split; [tauto | intros [H | [buf [[] _]]]; assumption].
  - rewrite IH, fold_uniques_In. split.
    + intros [[H | H] | [buf [Hb Hk]]]; eauto 6.
    + intros [H | [buf [[<- | Hb] Hk]]]; eauto 6.
Qed.

Lemma fast_unique_In (k : string) (gen : list (list string)) :
  In k (fast_unique_multiple_list_gen gen)
  <-> exists buf, In buf gen /\ In k buf.
Proof.
  unfold fast_unique_multiple_list_gen. rewrite fold_gen_In.
  simpl. tauto.
Qed.

Lemma dict_keys_get (d : pydict) (k : string) :
  In k (dict_keys d) <-> dict_get d k <> None.
Proof.
  induction d as [| [k' v] d IH]; simpl.
  - split; [tauto | congruence].
  - destruct (String.eqb_spec k k') as [-> | Hne].
    + split; [discriminate | auto].
    + rewrite <- IH. split; [intros [H | H] | ]; auto. congruence.
Qed.

(** The labels of the constructed frame are the keys some record has. *)
Lemma columns_pd_DataFrame (data : list pydict) (k : string) :
  In k (columns (pd_DataFrame data))
  <-> exists d, In d data /\ dict_get d k <> None.
Proof.
  simpl. rewrite fast_unique_In. split.
  - intros [buf [Hb Hk]]. apply in_map_iff in Hb as [d [<- Hd]].
    exists d. split; [assumption | now apply dict_keys_get].
  - intros [d [Hd Hk]]. exists (dict_keys d). split.
    + now apply in_map.
    + now apply dict_keys_get.
Qed.

Lemma index_pd_DataFrame (data : list pydict) :
  index (pd_DataFrame data) = List.length data.
Proof. reflexivity. Qed.

End Labels.

Section ColumnOrder.

Lemma fold_uniques_fresh (ks u : list string) :
  NoDup (u ++ ks) -> fold_left uniques_append ks u = u ++ ks.
Proof.
  revert u. induction ks as [| v ks IH]; intros u H; simpl.
  - now rewrite app_nil_r.
  - assert (Hv : mem v u = false).
    { apply mem_false. intros Hin. apply NoDup_remove_2 in H.
      apply H, in_or_app. now left. }
    unfold uniques_append at 2. rewrite Hv.
    rewrite IH; rewrite <- app_assoc; [reflexivity | exact H].
Qed.

Lemma fold_uniques_seen (ks u : list string) :
  incl ks u -> fold_left uniques_append ks u = u.
Proof.
  induction ks as [| v ks IH]; intros H; simpl; [reflexivity |].
  assert (Hv : mem v u = true) by (apply mem_In, H; now left).
  unfold uniques_append at 2. rewrite Hv.
  apply IH. intros x Hx. apply H. now right.
Qed.

End ColumnOrder.

Section Columns.

Variable g : string -> list pyval.

Lemma lookup_column_map (cols : list string) (k : string) :
  lookup_column cols (map g cols) k = if mem k cols then Some (g k) else None.
Proof.
  induction cols as [| c cols IH]; simpl; [reflexivity |].
  destruct (String.eqb_spec k c) as [-> | Hne]; simpl; [reflexivity | apply IH].
Qed.

Lemma lookup_column_In (cols : list string) (k : string) :
  In k cols -> lookup_column cols (map g cols) k = Some (g k).
Proof.
  intros H. rewrite lookup_column_map.
  apply mem_In in H. now rewrite H.
Qed.

End Columns.

Section Conversion.

Lemma to_float64_onan : to_float64 onan = onan.
Proof. reflexivity. Qed.

Lemma maybe_convert_length (l : list pyval) :
  List.length (maybe_convert_objects l) = List.length l.
Proof.
  unfold maybe_convert_objects.
  destruct (becomes_float64 (map classify l)); now rewrite ?length_map.
Qed.

(** A converted cell is the object itself or its [float64] image. *)
Lemma maybe_convert_nth (l : list pyval) (i : nat) :
  nth i (maybe_convert_objects l) onan = nth i l onan
  \/ nth i (maybe_convert_objects l) onan = to_float64 (nth i l onan).
Proof.
  unfold maybe_convert_objects.
  destruct (becomes_float64 (map classify l)); [right | now left].
  rewrite <- to_float64_onan at 1. apply map_nth.
Qed.

(** Floats, strings and lists go through every conversion unchanged. *)
Lemma maybe_convert_nth_fixed (l : list pyval) (i : nat) :
  to_float64 (nth i l onan) = nth i l onan ->
  nth i (maybe_convert_objects l) onan = nth i l onan.
Proof.
  intros H. destruct (maybe_convert_nth l i) as [E | E]; congruence.
Qed.

End Conversion.

Section Frames.

Lemma rows_length (df : DataFrame) : List.length (rows df) = index df.
Proof. unfold rows. now rewrite length_map, length_seq. Qed.

Lemma rows_nth_error (df : DataFrame) (i : nat) :
  nth_error (rows df) i = itertuple df i.
Proof.
  unfold rows, itertuple. rewrite nth_error_map, nth_error_seq.
  destruct (i <? index df)%nat; reflexivity.
Qed.

Lemma getitem_Return (df : DataFrame) (key : list string) :
  (forall k, In k key -> In k (columns df)) ->
  getitem df key
  = Return {| columns := key; index := index df; arrays := map (column df) key |}.
Proof.
  intros H. unfold getitem.
  replace (filter (fun k => negb (mem k (columns df))) key) with (@nil string);
    [reflexivity |].
  symmetry. induction key as [| k key IH]; simpl; [reflexivity |].
  assert (Hk : mem k (columns df) = true) by (apply mem_In, H; now left).
  rewrite Hk. simpl. apply IH. intros k' Hk'. apply H. now right.
Qed.

Lemma filter_length_all {A : Type} (f : A -> bool) (l : list A) :
  List.length (filter f l) = List.length l -> filter f l = l.
Proof.
  induction l as [| x l IH]; simpl; [reflexivity |].
  destruct (f x); simpl; intros H.
  - f_equal. apply IH. now injection H.
  - pose proof (filter_length_le f l). lia.
Qed.

Lemma not_found_In (cols key : list string) (k : string) :
  In k (filter (fun k => negb (mem k cols)) key) ->
  In k (not_found cols key).
Proof.
  intros H. unfold not_found.
  destruct (_ =? _)%nat.
  - now apply filter_In in H.
  - apply fold_uniques_In. now right.
Qed.

(** For distinct labels the error names the missing ones, in the order of
    the key. *)
Lemma not_found_NoDup (cols key : list string) :
  NoDup key ->
  not_found cols key = filter (fun k => negb (mem k cols)) key.
Proof.
  intros H. unfold not_found.
  destruct (Nat.eqb_spec
              (List.length (filter (fun k => negb (mem k cols)) key))
              (List.length key)) as [E | _].
  - symmetry. now apply filter_length_all.
  - apply (fold_uniques_fresh _ []). simpl. now apply NoDup_filter.
Qed.

Lemma getitem_Raise (df : DataFrame) (key : list string) (k : string) :
  In k key -> ~ In k (columns df) ->
  exists missing, getitem df key = Raise (KeyError missing) /\ In k missing.
Proof.
  intros Hk Hn. unfold getitem.
  assert (Hin : In k (filter (fun k => negb (mem k (columns df))) key)).
  { apply filter_In. split; [assumption |].
    apply mem_false in Hn. now rewrite Hn. }
  apply not_found_In in Hin as Hnf.
  destruct (filter _ key) as [| m missing] eqn:E; [destruct Hin |].
  eexists. split; [reflexivity | exact Hnf].
Qed.

(** Every outcome of a selection, in one statement. *)
Lemma getitem_cases (df : DataFrame) (key : list string) :
  (getitem df key
   = Return {| columns := key; index := index df; arrays := map (column df) key |}
   /\ forall k, In k key -> In k (columns df))
  \/ (exists missing k, getitem df key = Raise (KeyError missing)
                        /\ In k key /\ ~ In k (columns df)).
Proof.
  unfold getitem.
  destruct (filter (fun k => negb (mem k (columns df))) key) as [| m ms] eqn:E.
  - left. split; [reflexivity |]. intros k Hk.
    apply mem_In. destruct (mem k (columns df)) eqn:Hm; [reflexivity |].
    assert (Hin : In k (filter (fun k => negb (mem k (columns df))) key))
      by (apply filter_In; split; [assumption | now rewrite Hm]).
    rewrite E in Hin. destruct Hin.
  - right. exists (not_found (columns df) key), m.
    assert (Hin : In m (filter (fun k => negb (mem k (columns df))) key))
      by (rewrite E; now left).
    apply filter_In in Hin as [Hk Hm].
    split; [reflexivity | split; [assumption |]].
    apply mem_false. now destruct (mem m (columns df)).
Qed.

End Frames.

(* ================================================================= *)
(** ** Lemmas on the projection *)

Section Projection.

Variable segs : list Segment.

Lemma column_pd_DataFrame (k : string) :
  carried segs k ->
  column (pd_DataFrame segs) k
  = maybe_convert_objects (map (dict_cell k) segs).
Proof.
  intros Hc. apply columns_pd_DataFrame in Hc.
  unfold column. cbn [pd_DataFrame columns arrays] in *.
  unfold dicts_to_array_T. rewrite map_map.
  now rewrite (lookup_column_In
                 (fun col => maybe_convert_objects (map (dict_cell col) segs))).
Qed.

Lemma column_length (k : string) :
  carried segs k ->
  List.length (column (pd_DataFrame segs) k) = List.length segs.
Proof.
  intros Hc. now rewrite column_pd_DataFrame, maybe_convert_length, length_map.
Qed.

Lemma dict_cell_nth (k : string) (i : nat) (s : Segment) :
  nth_error segs i = Some s ->
  nth i (map (dict_cell k) segs) onan = dict_cell k s.
Proof.
  intros H. apply nth_error_nth.
  transitivity (option_map (dict_cell k) (nth_error segs i));
    [apply nth_error_map | now rewrite H].
Qed.

(** The cell of segment [i] under a carried label: the segment's value (NaN
    if it has none), possibly taken to [float64]. *)
Lemma cell_cases (k : string) (i : nat) (s : Segment) :
  carried segs k -> nth_error segs i = Some s ->
  nth i (column (pd_DataFrame segs) k) onan = dict_cell k s
  \/ nth i (column (pd_DataFrame segs) k) onan = to_float64 (dict_cell k s).
Proof.
  intros Hc Hi. rewrite column_pd_DataFrame by assumption.
  rewrite <- (dict_cell_nth k i s Hi). apply maybe_convert_nth.
Qed.

Lemma cell_fixed (k : string) (i : nat) (s : Segment) :
  carried segs k -> nth_error segs i = Some s ->
  to_float64 (dict_cell k s) = dict_cell k s ->
  nth i (column (pd_DataFrame segs) k) onan = dict_cell k s.
Proof.
  intros Hc Hi Hfix. destruct (cell_cases k i s Hc Hi); congruence.
Qed.

Lemma cell_missing (k : string) (i : nat) (s : Segment) :
  carried segs k -> nth_error segs i = Some s ->
  dict_get s k = None ->
  nth i (column (pd_DataFrame segs) k) onan = onan.
Proof.
  intros Hc Hi Hnone.
  assert (E : dict_cell k s = onan) by (unfold dict_cell; now rewrite Hnone).
  rewrite (cell_fixed k i s Hc Hi); [exact E | now rewrite E].
Qed.

Lemma projected_at (k : string) (i : nat) (s : Segment) :
  In k table_columns -> carried segs k -> nth_error segs i = Some s ->
  at_ (projected segs) i k
  = Some (nth i (column (pd_DataFrame segs) k) onan).
Proof.
  intros Hk Hc Hi. unfold at_, projected. cbn [columns arrays index].
  rewrite lookup_column_In by assumption.
  assert (Hlt : i < List.length segs)
    by (apply nth_error_Some; congruence).
  apply Nat.ltb_lt in Hlt as Hb. rewrite Hb.
  apply nth_error_nth'. now rewrite column_length.
Qed.

Lemma projected_rows_nth (i : nat) (s : Segment) :
  nth_error segs i = Some s ->
  nth_error (rows (projected segs)) i
  = Some (map (fun k => nth i (column (pd_DataFrame segs) k) onan) table_columns).
Proof.
  intros Hi. rewrite rows_nth_error. unfold itertuple, row_at, projected.
  cbn [columns arrays index].
  assert (Hlt : i < List.length segs)
    by (apply nth_error_Some; congruence).
  apply Nat.ltb_lt in Hlt. rewrite Hlt. now rewrite map_map.
Qed.

End Projection.

Section ProjectOutcome.

Lemma project_None : project None = Raise TypeError.
Proof. reflexivity. Qed.

Lemma project_Some (r : TranscriptionResult) :
  project (Some r) = getitem (pd_DataFrame (segments r)) table_columns.
Proof. reflexivity. Qed.

(** A run on a result succeeds exactly when every table column is carried
    by some segment, and then ends with [projected]. *)
Lemma project_cases (r : TranscriptionResult) :
  (project (Some r) = Return (projected (segments r))
   /\ forall k, In k table_columns -> carried (segments r) k)
  \/ (exists missing k, project (Some r) = Raise (KeyError missing)
                        /\ In k table_columns /\ ~ carried (segments r) k).
Proof.
  rewrite project_Some.
  destruct (getitem_cases (pd_DataFrame (segments r)) table_columns)
    as [[E H] | [missing [k [E [Hk Hn]]]]].
  - left. split; [exact E |].
    intros k Hk. now apply columns_pd_DataFrame, H.
  - right. exists missing, k. split; [exact E | split; [exact Hk |]].
    intros Hc. now apply Hn, columns_pd_DataFrame.
Qed.

Lemma project_carried (r : TranscriptionResult) :
  (forall k, In k table_columns -> carried (segments r) k) ->
  project (Some r) = Return (projected (segments r)).
Proof.
  intros H. destruct (project_cases r) as [[E _] | [m [k [_ [Hk Hn]]]]].
  - exact E.
  - elim Hn. now apply H.
Qed.

Lemma project_Return_inv (res : option TranscriptionResult) (df : DataFrame) :
  project res = Return df ->
  exists r, res = Some r /\ df = projected (segments r)
            /\ forall k, In k table_columns -> carried (segments r) k.
Proof.
  destruct res as [r |]; [| discriminate].
  intros H. exists r. split; [reflexivity |].
  destruct (project_cases r) as [[E Hc] | [m [k [E _]]]];
    rewrite E in H; [| discriminate].
  injection H as <-. now split.
Qed.

End ProjectOutcome.

Section ValidSegments.

Lemma valid_segment_get (s : Segment) :
  valid_segment s = true ->
  exists a b t, dict_get s "start" = Some (PyFloat a)
                /\ dict_get s "end" = Some (PyFloat b)
                /\ dict_get s "text" = Some (PyStr t).
Proof.
  unfold valid_segment, has_float, has_str. intros H.
  apply andb_prop in H as [H Ht]. apply andb_prop in H as [Ha Hb].
  destruct (dict_get s "start") as [[] |]; try discriminate.
  destruct (dict_get s "end") as [[] |]; try discriminate.
  destruct (dict_get s "text") as [[] |]; try discriminate.
  eauto 6.
Qed.

Lemma valid_segment_present (s : Segment) (k : string) :
  valid_segment s = true -> In k table_columns ->
  dict_get s k = Some (dict_cell k s)
  /\ to_float64 (dict_cell k s) = dict_cell k s.
Proof.
  intros Hv Hk. destruct (valid_segment_get s Hv) as [a [b [t [Ha [Hb Ht]]]]].
  unfold dict_cell.
  destruct Hk as [<- | [<- | [<- | []]]];
    [rewrite Ha | rewrite Hb | rewrite Ht]; now split.
Qed.

Lemma valid_segment_carried (segs : list Segment) (s : Segment) (k : string) :
  In s segs -> valid_segment s = true -> In k table_columns ->
  carried segs k.
Proof.
  intros Hs Hv Hk. exists s. split; [assumption |].
  destruct (valid_segment_present s k Hv Hk) as [E _]. congruence.
Qed.

Lemma valid_result_nth (r : TranscriptionResult) (i : nat) (s : Segment) :
  valid_result r -> nth_error (segments r) i = Some s ->
  valid_segment s = true.
Proof.
  unfold valid_result. rewrite forallb_forall. intros Hv Hi.
  apply Hv. eapply nth_error_In, Hi.
Qed.

(** One valid segment is enough for the run to succeed, and its row holds
    its three values as they are, whatever the other segments look like. *)
Lemma project_valid_at (r : TranscriptionResult) (i : nat) (s : Segment) :
  nth_error (segments r) i = Some s -> valid_segment s = true ->
  project (Some r) = Return (projected (segments r))
  /\ nth_error (rows (projected (segments r))) i = Some (segment_row s)
  /\ forall k, In k table_columns ->
               at_ (projected (segments r)) i k = dict_get s k
               /\ dict_get s k <> None.
Proof.
  intros Hi Hv.
  assert (Hs : In s (segments r)) by (eapply nth_error_In, Hi).
  assert (Hc : forall k, In k table_columns -> carried (segments r) k)
    by (intros k Hk; now apply (valid_segment_carried _ s)).
  assert (Hcell : forall k, In k table_columns ->
            nth i (column (pd_DataFrame (segments r)) k) onan = dict_cell k s).
  { intros k Hk. apply cell_fixed; auto.
    now apply valid_segment_present. }
  split; [now apply project_carried |]. split.
  - rewrite (projected_rows_nth _ i s Hi). unfold segment_row. f_equal.
    apply map_ext_in. intros k Hk. now apply Hcell.
  - intros k Hk. destruct (valid_segment_present s k Hv Hk) as [E _].
    rewrite (projected_at _ k i s) by auto.
    rewrite Hcell by assumption. split; congruence.
Qed.

End ValidSegments.

Section ValidResults.

Variable r : TranscriptionResult.
Hypothesis Hvalid : valid_result r.

Lemma valid_result_carried :
  segments r <> [] ->
  forall k, In k table_columns -> carried (segments r) k.
Proof.
  intros Hne k Hk. destruct (segments r) as [| s segs] eqn:E; [congruence |].
  apply (valid_segment_carried _ s); [now left | | assumption].
  apply (valid_result_nth r 0 s Hvalid). now rewrite E.
Qed.

Lemma projected_rows_valid :
  rows (projected (segments r)) = map segment_row (segments r).
Proof.
  apply nth_error_ext. intros n.
  transitivity (option_map segment_row (nth_error (segments r) n));
    [| symmetry; apply nth_error_map].
  destruct (nth_error (segments r) n) as [s |] eqn:E.
  - apply (project_valid_at r n s E). now apply (valid_result_nth r n).
  - rewrite rows_nth_error. unfold itertuple. cbn [projected index].
    apply nth_error_None in E. apply Nat.ltb_ge in E. now rewrite E.
Qed.

End ValidResults.

(* ================================================================= *)
(** ** Lemmas on the notebook cell *)

Section Cell.
Import Notebook.

(** What a run does, by the value of [result]. *)
Lemma run_cell_eq (ns : namespace) :
  run_cell ns =
  match result ns with
  | Unbound => (ns, Some (NameError "result"))
  | Bound None => (ns, Some TypeError)
  | Bound (Some r) =>
      match getitem (pd_DataFrame (segments r)) table_columns with
      | Raise e => (set_transcript_df ns (pd_DataFrame (segments r)), Some e)
      | Return df => (set_transcript_df ns df, None)
      end
  end.
Proof.
  unfold run_cell, stmt1, stmt2, load_result, load_transcript_df.
  destruct (result ns) as [| [r |]]; reflexivity.
Qed.

(** The cell yields what [project] yields on the value of [result]. *)
Lemma cell_output_project (ns : namespace) :
  cell_output ns = (res <- load_result ns ;; project res).
Proof.
  unfold cell_output. rewrite run_cell_eq. unfold load_result.
  destruct (result ns) as [| [r |]]; try reflexivity.
  change (bind (Return (Some r)) (fun res => project res))
    with (getitem (pd_DataFrame (segments r)) table_columns).
  destruct (getitem (pd_DataFrame (segments r)) table_columns); reflexivity.
Qed.

(** When the selection raises, the first assignment has already happened:
    [transcript_df] stays bound to the frame of all the segments' fields. *)
Lemma run_cell_KeyError_keeps_frame (ns : namespace) (r : TranscriptionResult)
      (e : pyerror) :
  result ns = Bound (Some r) -> project (Some r) = Raise e ->
  run_cell ns = (set_transcript_df ns (pd_DataFrame (segments r)), Some e).
Proof.
  intros Hr He. rewrite run_cell_eq, Hr. rewrite project_Some in He.
  now rewrite He.
Qed.

End Cell.

(* ================================================================= *)
(** ** The columns no segment carries *)

Section Carried.

Variable segs : list Segment.

Lemma carriedb_carried (k : string) :
  carriedb segs k = true <-> carried segs k.
Proof.
  unfold carriedb, carried, dict_contains. rewrite existsb_exists.
  split; intros [s [Hs Hk]]; exists s; (split; [assumption |]);
    destruct (dict_get s k); congruence.
Qed.

Lemma mem_columns_carriedb (k : string) :
  mem k (columns (pd_DataFrame segs)) = carriedb segs k.
Proof.
  destruct (carriedb segs k) eqn:E.
  - apply mem_In, columns_pd_DataFrame, carriedb_carried, E.
  - apply mem_false. intros H.
    apply columns_pd_DataFrame, carriedb_carried in H. congruence.
Qed.

(** The array the constructed frame holds under a label, carried or not. *)
Lemma column_pd_DataFrame_cases (k : string) :
  column (pd_DataFrame segs) k
  = if carriedb segs k
    then maybe_convert_objects (map (dict_cell k) segs)
    else [].
Proof.
  destruct (carriedb segs k) eqn:E.
  - apply column_pd_DataFrame, carriedb_carried, E.
  - unfold column. cbn [pd_DataFrame columns arrays].
    unfold dicts_to_array_T. rewrite map_map.
    rewrite (lookup_column_map
               (fun col => maybe_convert_objects (map (dict_cell col) segs))).
    change (fast_unique_multiple_list_gen (map dict_keys segs))
      with (columns (pd_DataFrame segs)).
    now rewrite mem_columns_carriedb, E.
Qed.

End Carried.

Lemma table_columns_NoDup : NoDup table_columns.
Proof.
  repeat constructor; simpl; intuition discriminate.
Qed.

Lemma project_uncarried (r : TranscriptionResult) :
  project (Some r)
  = match uncarried (segments r) with
    | [] => Return (projected (segments r))
    | missing => Raise (KeyError missing)
    end.
Proof.
  rewrite project_Some. unfold getitem, uncarried.
  rewrite (not_found_NoDup _ _ table_columns_NoDup).
  rewrite (filter_ext (fun k => negb (mem k (columns (pd_DataFrame (segments r)))))
                      (fun k => negb (carriedb (segments r) k)))
    by (intros k; now rewrite mem_columns_carriedb).
  now destruct (filter _ table_columns).
Qed.

Lemma uncarried_In (segs : list Segment) (k : string) :
  In k (uncarried segs)
  <-> In k table_columns /\ forall s, In s segs -> dict_get s k = None.
Proof.
  unfold uncarried. rewrite filter_In, negb_true_iff.
  split; intros [Hk H]; (split; [exact Hk |]).
  - intros s Hs. destruct (dict_get s k) eqn:E; [| reflexivity].
    assert (Hc : carriedb segs k = true)
      by (apply carriedb_carried; exists s; split; [exact Hs | congruence]).
    congruence.
  - destruct (carriedb segs k) eqn:E; [| reflexivity].
    apply carriedb_carried in E as [s [Hs Hget]]. elim Hget. now apply H.
Qed.

(* ================================================================= *)
(** ** Row count, row order, values and columns *)

(** C1, as the specification states it, at the empty segment sequence: the
    result is valid, yet the run raises [KeyError] for all three labels, so
    no table whose row count equals the segment count comes back. *)
Lemma project_no_segments_no_table :
  valid_result Samples.no_segments
  /\ project (Some Samples.no_segments)
     = Raise (KeyError ["start"; "end"; "text"])
  /\ ~ (exists df, project (Some Samples.no_segments) = Return df
                   /\ List.length (rows df)
                      = List.length (segments Samples.no_segments)).
Proof.
  split; [reflexivity |]. split; [reflexivity |].
  intros [df [H _]]. vm_compute in H. discriminate H.
Qed.

(** C1 (amended): for every valid result with at least one segment the run
    returns a table, and the table has as many rows as there are segments. *)
Theorem project_row_count (r : TranscriptionResult) :
  valid_result r -> segments r <> [] ->
  exists df, project (Some r) = Return df
             /\ List.length (rows df) = List.length (segments r).
Proof.
  intros Hv Hne. exists (projected (segments r)). split.
  - apply project_carried. now apply valid_result_carried.
  - apply rows_length.
Qed.

Lemma project_row_count_witness :
  valid_result Samples.hello_world
  /\ segments Samples.hello_world <> []
  /\ exists df, project (Some Samples.hello_world) = Return df
                /\ List.length (rows df) = 2.
Proof.
  split; [reflexivity |]. split; [discriminate |].
  apply (project_row_count Samples.hello_world).
  - reflexivity.
  - discriminate.
Defined.

(** C2: for every valid result and every index [i] of its segments, the run
    returns a table whose [i]-th row is the row of the [i]-th segment; the
    rows are the segments' rows in the segments' order, none dropped, none
    merged, none moved. *)
Theorem project_rows_in_segment_order
        (r : TranscriptionResult) (i : nat) (s : Segment) :
  valid_result r -> nth_error (segments r) i = Some s ->
  exists df, project (Some r) = Return df
             /\ nth_error (rows df) i = Some (segment_row s)
             /\ rows df = map segment_row (segments r).
Proof.
  intros Hv Hi. exists (projected (segments r)).
  destruct (project_valid_at r i s Hi (valid_result_nth r i s Hv Hi))
    as [E [Hrow _]].
  repeat split; [exact E | exact Hrow | now apply projected_rows_valid].
Qed.

Lemma project_rows_in_segment_order_witness :
  valid_result Samples.odd_times
  /\ nth_error (segments Samples.odd_times) 1 = Some (Samples.seg (-3) (-5) "x")
  /\ exists df, project (Some Samples.odd_times) = Return df
                /\ nth_error (rows df) 1
                   = Some [PyFloat (-3); PyFloat (-5); PyStr "x"]
                /\ rows df = [[PyFloat (-3); PyFloat (-5); PyStr "x"];
                              [PyFloat (-3); PyFloat (-5); PyStr "x"];
                              [PyFloat 9; PyFloat 2; PyStr " y "]].
Proof.
  split; [reflexivity |]. split; [reflexivity |].
  apply (project_rows_in_segment_order Samples.odd_times 1
           (Samples.seg (-3) (-5) "x")); reflexivity.
Defined.

(** C3: for every valid result and every index [i], the cells of row [i]
    under [start], [end] and [text] are the very values the [i]-th segment
    has there.  No condition is put on the timestamps: negative ones and
    [end < start] pass through like any other. *)
Theorem project_fields_pass_through
        (r : TranscriptionResult) (i : nat) (s : Segment) :
  valid_result r -> nth_error (segments r) i = Some s ->
  exists df a b t,
    project (Some r) = Return df
    /\ (dict_get s "start" = Some (PyFloat a)
        /\ at_ df i "start" = Some (PyFloat a))
    /\ (dict_get s "end" = Some (PyFloat b)
        /\ at_ df i "end" = Some (PyFloat b))
    /\ (dict_get s "text" = Some (PyStr t)
        /\ at_ df i "text" = Some (PyStr t)).
Proof.
  intros Hv Hi.
  assert (Hs : valid_segment s = true) by exact (valid_result_nth r i s Hv Hi).
  destruct (project_valid_at r i s Hi Hs) as [E [_ Hat]].
  destruct (valid_segment_get s Hs) as [a [b [t [Ha [Hb Ht]]]]].
  exists (projected (segments r)), a, b, t.
  split; [exact E |].
  repeat split; try assumption.
  - rewrite <- Ha. apply Hat. simpl; auto.
  - rewrite <- Hb. apply Hat. simpl; auto.
  - rewrite <- Ht. apply Hat. simpl; auto.
Qed.

Lemma project_fields_pass_through_witness :
  valid_result Samples.odd_times
  /\ nth_error (segments Samples.odd_times) 0 = Some (Samples.seg (-3) (-5) "x")
  /\ exists df a b t,
       project (Some Samples.odd_times) = Return df
       /\ (dict_get (Samples.seg (-3) (-5) "x") "start" = Some (PyFloat a)
           /\ at_ df 0 "start" = Some (PyFloat a))
       /\ (dict_get (Samples.seg (-3) (-5) "x") "end" = Some (PyFloat b)
           /\ at_ df 0 "end" = Some (PyFloat b))
       /\ (dict_get (Samples.seg (-3) (-5) "x") "text" = Some (PyStr t)
           /\ at_ df 0 "text" = Some (PyStr t)).
Proof.
  split; [reflexivity |]. split; [reflexivity |].
  apply (project_fields_pass_through Samples.odd_times 0); reflexivity.
Defined.

(** C4: for every valid result, every row of the returned table has exactly
    three cells, the segment's [start], [end] and [text] values, each to be
    read under its label; the columns are [start], [end], [text] in that
    order and there is no cell under any other label, so whatever else a
    segment carries is not in the table. *)
Theorem project_exposes_three_columns
        (r : TranscriptionResult) (i : nat) (s : Segment) :
  valid_result r -> nth_error (segments r) i = Some s ->
  exists df, project (Some r) = Return df
             /\ columns df = ["start"; "end"; "text"]
             /\ (exists a b c,
                   nth_error (rows df) i = Some [a; b; c]
                   /\ (at_ df i "start" = Some a /\ dict_get s "start" = Some a)
                   /\ (at_ df i "end" = Some b /\ dict_get s "end" = Some b)
                   /\ (at_ df i "text" = Some c /\ dict_get s "text" = Some c))
             /\ forall k, ~ In k ["start"; "end"; "text"] -> at_ df i k = None.
Proof.
  intros Hv Hi. exists (projected (segments r)).
  assert (Hs : valid_segment s = true) by exact (valid_result_nth r i s Hv Hi).
  destruct (project_valid_at r i s Hi Hs) as [E [Hrow Hat]].
  destruct (valid_segment_get s Hs) as [a [b [t [Ha [Hb Ht]]]]].
  split; [exact E |]. split; [reflexivity |]. split.
  - exists (PyFloat a), (PyFloat b), (PyStr t).
    split.
    + rewrite Hrow. unfold segment_row, dict_cell. simpl.
      now rewrite Ha, Hb, Ht.
    + repeat split; try assumption.
      * rewrite <- Ha. apply Hat. simpl; auto.
      * rewrite <- Hb. apply Hat. simpl; auto.
      * rewrite <- Ht. apply Hat. simpl; auto.
  - intros k Hk. unfold at_, projected. cbn [columns arrays].
    rewrite lookup_column_map.
    apply mem_false in Hk. unfold table_columns. now rewrite Hk.
Qed.

Lemma project_exposes_three_columns_witness :
  valid_result Samples.apache
  /\ dict_get (Samples.whisper_seg 3 19 21 "") "tokens"
     = Some (PyList [PyInt 50363; PyInt 362])
  /\ exists df,
       project (Some Samples.apache) = Return df
       /\ columns df = ["start"; "end"; "text"]
       /\ (exists a b c,
             nth_error (rows df) 0 = Some [a; b; c]
             /\ (at_ df 0 "start" = Some a
                 /\ dict_get (Samples.whisper_seg
                                3 19 21 " Is that guy making a between there?")
                              "start" = Some a)
             /\ (at_ df 0 "end" = Some b
                 /\ dict_get (Samples.whisper_seg
                                3 19 21 " Is that guy making a between there?")
                              "end" = Some b)
             /\ (at_ df 0 "text" = Some c
                 /\ dict_get (Samples.whisper_seg
                                3 19 21 " Is that guy making a between there?")
                              "text" = Some c))
       /\ forall k, ~ In k ["start"; "end"; "text"] -> at_ df 0 k = None.
Proof.
  split; [reflexivity |]. split; [reflexivity |].
  apply (project_exposes_three_columns Samples.apache 0
           (Samples.whisper_seg 3 19 21 " Is that guy making a between there?"));
    reflexivity.
Defined.

(* ================================================================= *)
(** ** Failures and partial rows *)

(** C5, as the specification states it, fails both ways.  A segment without
    [text] next to one that has it is invalid input for the specification,
    and the run returns a table; the empty segment sequence is valid input
    for the specification, and the run raises. *)
Lemma project_error_condition_differs :
  (spec_invalid_input (Some Samples.missing_text)
   /\ ~ raises (project (Some Samples.missing_text)))
  /\ (~ spec_invalid_input (Some Samples.no_segments)
      /\ raises (project (Some Samples.no_segments))
      /\ ~ (exists df, project (Some Samples.no_segments) = Return df)).
Proof.
  split; [split | split; [| split]].
  - right. exists Samples.missing_text,
      [("start", PyFloat 7%float); ("end", PyFloat 14%float)].
    split; [reflexivity |]. split; [simpl; auto |].
    exists "text". split; [simpl; auto | reflexivity].
  - intros [e H]. vm_compute in H. discriminate H.
  - intros [H | [r [s [H [Hs _]]]]]; [discriminate H |].
    injection H as <-. destruct Hs.
  - eexists. reflexivity.
  - intros [df H]. vm_compute in H. discriminate H.
Qed.

(** C5 (amended): the run fails exactly when [result] is [None], or when one
    of [start], [end], [text] is an entry of no segment at all, which is the
    case of the empty segment sequence.  The first failure is a [TypeError];
    the second is a [KeyError] that names exactly the fields no segment has,
    each once, in the order [start], [end], [text]. *)
Theorem project_raises_iff (res : option TranscriptionResult) :
  (raises (project res)
   <-> res = None
       \/ exists r k, res = Some r /\ In k table_columns
                      /\ forall s, In s (segments r) -> dict_get s k = None)
  /\ (forall e, project res = Raise e ->
        (res = None /\ e = TypeError)
        \/ exists r,
             res = Some r
             /\ e = KeyError (uncarried (segments r))
             /\ uncarried (segments r) <> []
             /\ NoDup (uncarried (segments r))
             /\ forall k, In k (uncarried (segments r))
                          <-> In k table_columns
                              /\ forall s, In s (segments r) ->
                                           dict_get s k = None).
Proof.
  destruct res as [r |].
  - rewrite project_uncarried.
    destruct (uncarried (segments r)) as [| m ms] eqn:E.
    + split.
      * split.
        -- intros [e He]. discriminate He.
        -- intros [H | [r' [k [H [Hk Hall]]]]]; [discriminate H |].
           injection H as <-.
           assert (Hin : In k (uncarried (segments r)))
             by (apply uncarried_In; now split).
           rewrite E in Hin. destruct Hin.
      * intros e He. discriminate He.
    + assert (Hm : In m (uncarried (segments r))) by (rewrite E; now left).
      apply uncarried_In in Hm as [Hk Hall].
      split.
      * split.
        -- intros _. right. exists r, m. now repeat split.
        -- intros _. eexists. reflexivity.
      * intros e He. injection He as <-. right. exists r.
        split; [reflexivity |]. split; [now rewrite ?E |].
        split; [rewrite ?E; discriminate |]. split.
        -- apply NoDup_filter, table_columns_NoDup.
        -- intros k. apply uncarried_In.
  - split.
    + split; [now left | intros _; eexists; reflexivity].
    + intros e He. left. split; [reflexivity |].
      rewrite project_None in He. now injection He.
Qed.

(** C6, as the specification states it, at a segment without [text] next to
    one that has it: the run returns a table, and the [text] cell of that
    segment's row is NaN, a value the segment never had. *)
Lemma project_fills_missing_with_nan :
  dict_get [("start", PyFloat 7%float); ("end", PyFloat 14%float)] "text" = None
  /\ exists df,
       project (Some Samples.missing_text) = Return df
       /\ rows df = [[PyFloat 0%float; PyFloat 7%float; PyStr "hello"];
                     [PyFloat 7%float; PyFloat 14%float; PyFloat nan]]
       /\ at_ df 1 "text" = Some (PyFloat nan).
Proof.
  split; [reflexivity |].
  eexists. split; [reflexivity |]. split; reflexivity.
Qed.

(** C6 (amended): the run either fails with an error and returns no table,
    or returns a table with one row of three cells per segment.  A cell
    holds its segment's value for the field, NaN if the segment has none;
    the row of a valid segment is exactly the segment's three values. *)
Theorem project_complete_or_raises (res : option TranscriptionResult) :
  raises (project res)
  \/ exists r df,
       res = Some r /\ project res = Return df
       /\ List.length (rows df) = List.length (segments r)
       /\ forall i s, nth_error (segments r) i = Some s ->
            exists a b c,
              nth_error (rows df) i = Some [a; b; c]
              /\ cell_of s "start" a /\ cell_of s "end" b /\ cell_of s "text" c
              /\ (valid_segment s = true -> [a; b; c] = segment_row s).
Proof.
  destruct res as [r |]; [| left; eexists; reflexivity].
  destruct (project_cases r) as [[E Hc] | [missing [k [E _]]]];
    [right | left; eexists; exact E].
  exists r, (projected (segments r)).
  split; [reflexivity |]. split; [exact E |]. split; [apply rows_length |].
  intros i s Hi.
  assert (Hcell : forall k, In k table_columns ->
            cell_of s k (nth i (column (pd_DataFrame (segments r)) k) onan)).
  { intros k Hk. unfold cell_of.
    destruct (dict_get s k) as [v |] eqn:Hget.
    - assert (Ev : dict_cell k s = v) by (unfold dict_cell; now rewrite Hget).
      rewrite <- Ev. apply cell_cases; auto.
    - apply (cell_missing _ k i s); auto. }
  do 3 eexists. split; [apply (projected_rows_nth _ i s Hi) |].
  split; [apply Hcell; simpl; auto |].
  split; [apply Hcell; simpl; auto |].
  split; [apply Hcell; simpl; auto |].
  intros Hv. destruct (project_valid_at r i s Hi Hv) as [_ [Hrow _]].
  rewrite (projected_rows_nth _ i s Hi) in Hrow.
  injection Hrow as Ha Hb Hc'. unfold segment_row. simpl. congruence.
Qed.

(* ================================================================= *)
(** ** Determinism, dependence and frame *)

(** On the namespace of values: running the cell a second time yields what
    the first run yielded, table or exception, and leaves the namespace as
    the first run left it; what a run yields is [project] of the value of
    [result], whatever [transcript_df] was bound to before. *)
Lemma run_cell_twice (ns : Notebook.namespace) :
  Notebook.cell_output (fst (Notebook.run_cell ns)) = Notebook.cell_output ns
  /\ Notebook.run_cell (fst (Notebook.run_cell ns)) = Notebook.run_cell ns
  /\ Notebook.cell_output ns = (res <- Notebook.load_result ns ;; project res).
Proof.
  assert (Hrun : Notebook.run_cell (fst (Notebook.run_cell ns))
                 = Notebook.run_cell ns).
  { rewrite (run_cell_eq (fst (Notebook.run_cell ns))), (run_cell_eq ns).
    destruct (Notebook.result ns) as [| [r |]] eqn:Hr; cbn [fst];
      try (now rewrite Hr).
    destruct (getitem (pd_DataFrame (segments r)) table_columns) eqn:Hg;
      cbn; rewrite Hr, Hg; reflexivity. }
  split; [| split; [exact Hrun | apply cell_output_project]].
  unfold Notebook.cell_output. now rewrite Hrun.
Qed.

(** C8: two results with the same segments give the same outcome, whatever
    their full texts are. *)
Theorem project_ignores_text (r1 r2 : TranscriptionResult) :
  segments r1 = segments r2 -> project (Some r1) = project (Some r2).
Proof.
  intros H. now rewrite !project_Some, H.
Qed.

Lemma project_ignores_text_witness :
  text Samples.hello_world <> "something else entirely"
  /\ project (Some Samples.hello_world)
     = project (Some {| text := "something else entirely";
                        segments := segments Samples.hello_world |}).
Proof.
  split; [discriminate |].
  apply (project_ignores_text Samples.hello_world). reflexivity.
Defined.

(** On the namespace of values: a run of the cell, finished or stopped by an
    exception, does not rebind the name [result]. *)
Lemma run_cell_preserves_result (ns : Notebook.namespace) :
  Notebook.result (fst (Notebook.run_cell ns)) = Notebook.result ns.
Proof.
  rewrite run_cell_eq.
  destruct (Notebook.result ns) as [| [r |]] eqn:Hr; cbn [fst];
    try exact Hr.
  destruct (getitem (pd_DataFrame (segments r)) table_columns); exact Hr.
Qed.

(** C10: row [i] of the table is the row of segment [i] alone.  Take a valid
    result and any other result that has the same segment at index [i]: both
    runs return a table, and the two tables have the same row [i]. *)
Theorem project_row_depends_on_own_segment
        (r r' : TranscriptionResult) (i : nat) (s : Segment) :
  valid_result r ->
  nth_error (segments r) i = Some s -> nth_error (segments r') i = Some s ->
  exists df df',
    project (Some r) = Return df /\ project (Some r') = Return df'
    /\ nth_error (rows df) i = Some (segment_row s)
    /\ nth_error (rows df') i = nth_error (rows df) i.
Proof.
  intros Hv Hi Hi'.
  assert (Hs : valid_segment s = true) by exact (valid_result_nth r i s Hv Hi).
  destruct (project_valid_at r i s Hi Hs) as [E [Hrow _]].
  destruct (project_valid_at r' i s Hi' Hs) as [E' [Hrow' _]].
  exists (projected (segments r)), (projected (segments r')).
  repeat split; try assumption. congruence.
Qed.

Lemma project_row_depends_on_own_segment_witness :
  valid_result Samples.hello_world
  /\ nth_error (segments Samples.hello_world) 1
     <> nth_error (segments Samples.missing_text) 1
  /\ exists df df',
       project (Some Samples.hello_world) = Return df
       /\ project (Some Samples.missing_text) = Return df'
       /\ nth_error (rows df) 0
          = Some [PyFloat 0%float; PyFloat 7%float; PyStr "hello"]
       /\ nth_error (rows df') 0 = nth_error (rows df) 0.
Proof.
  split; [reflexivity |]. split; [discriminate |].
  apply (project_row_depends_on_own_segment
           Samples.hello_world Samples.missing_text 0
           (Samples.seg 0 7 "hello")); reflexivity.
Defined.

(* ================================================================= *)
(** ** The outcome of the projection in closed form *)

(** X1: on a transcription result the run returns the projected frame when
    every table column is an entry of some segment; otherwise it raises
    [KeyError] with exactly the table columns that no segment has an entry
    for, in the order [start], [end], [text]. *)
Theorem project_outcome (r : TranscriptionResult) :
  (project (Some r) = Return (projected (segments r))
   /\ forall k, In k table_columns -> carried (segments r) k)
  \/ (exists missing,
        project (Some r) = Raise (KeyError missing)
        /\ missing <> []
        /\ missing = filter (fun k => negb (carriedb (segments r) k))
                            ["start"; "end"; "text"]
        /\ forall k, In k missing
                     <-> In k table_columns
                         /\ forall s, In s (segments r) -> dict_get s k = None).
Proof.
  rewrite project_uncarried.
  destruct (uncarried (segments r)) as [| m ms] eqn:E.
  - left. split; [reflexivity |]. intros k Hk.
    apply carriedb_carried. destruct (carriedb (segments r) k) eqn:Ec;
      [reflexivity |].
    assert (Hin : In k (uncarried (segments r)))
      by (apply filter_In; split; [exact Hk | now rewrite Ec]).
    rewrite E in Hin. destruct Hin.
  - right. exists (m :: ms). split; [reflexivity |]. split; [discriminate |].
    split; [symmetry; exact E |].
    intros k. rewrite <- E. apply uncarried_In.
Qed.

Section SameFields.

Variable k : string.
Hypothesis Hk : In k table_columns.

Lemma same_fields_cells (segs segs' : list Segment) :
  Forall2 same_fields segs segs' ->
  map (dict_cell k) segs = map (dict_cell k) segs'.
Proof.
  induction 1 as [| s s' l l' Hs _ IH]; [reflexivity |].
  simpl. f_equal; [| exact IH]. unfold dict_cell. now rewrite (Hs k Hk).
Qed.

Lemma same_fields_carriedb (segs segs' : list Segment) :
  Forall2 same_fields segs segs' -> carriedb segs k = carriedb segs' k.
Proof.
  unfold carriedb. induction 1 as [| s s' l l' Hs _ IH]; [reflexivity |].
  simpl. f_equal; [| exact IH]. unfold dict_contains. now rewrite (Hs k Hk).
Qed.

End SameFields.

Lemma same_fields_projected (segs segs' : list Segment) :
  Forall2 same_fields segs segs' -> projected segs = projected segs'.
Proof.
  intros Hsame. unfold projected. f_equal.
  - apply (Forall2_length Hsame).
  - apply map_ext_in. intros k Hk.
    rewrite !column_pd_DataFrame_cases.
    now rewrite (same_fields_carriedb k Hk segs segs' Hsame),
                (same_fields_cells k Hk segs segs' Hsame).
Qed.

Lemma same_fields_uncarried (segs segs' : list Segment) :
  Forall2 same_fields segs segs' -> uncarried segs = uncarried segs'.
Proof.
  intros Hsame. unfold uncarried. apply filter_ext_in. intros k Hk.
  now rewrite (same_fields_carriedb k Hk segs segs' Hsame).
Qed.

(** X2: the outcome depends on the segments only through their [start],
    [end] and [text] entries: two results whose segments agree on these
    three, one by one, give the same table or the same exception, whatever
    else the segments carry and in whatever order their keys come. *)
Theorem project_same_fields (r r' : TranscriptionResult) :
  Forall2 same_fields (segments r) (segments r') ->
  project (Some r) = project (Some r').
Proof.
  intros H. rewrite !project_uncarried.
  now rewrite (same_fields_uncarried _ _ H), (same_fields_projected _ _ H).
Qed.

Lemma project_same_fields_witness :
  segments Samples.apache
    <> [Samples.seg 19 21 " Is that guy making a between there?";
        [("text", PyStr " Nope."); ("end", PyFloat 22%float);
         ("start", PyFloat 21%float)]]
  /\ project (Some Samples.apache)
     = project (Some {| text := "";
                        segments :=
                          [Samples.seg 19 21 " Is that guy making a between there?";
                           [("text", PyStr " Nope."); ("end", PyFloat 22%float);
                            ("start", PyFloat 21%float)]] |}).
Proof.
  split; [discriminate |].
  apply project_same_fields.
  repeat constructor; intros k [<- | [<- | [<- | []]]]; reflexivity.
Defined.

(* ================================================================= *)
(** ** The shape of the frames *)

Section Shape.

Lemma uniques_append_NoDup (u : list string) (v : string) :
  NoDup u -> NoDup (uniques_append u v).
Proof.
  intros H. unfold uniques_append. destruct (mem v u) eqn:E; [assumption |].
  apply mem_false in E. apply NoDup_app; [assumption | | ].
  - constructor; [intros [] | constructor].
  - intros x Hx [<- | []]. contradiction.
Qed.

Lemma fold_uniques_NoDup (buf u : list string) :
  NoDup u -> NoDup (fold_left uniques_append buf u).
Proof.
  revert u. induction buf as [| v buf IH]; intros u H; simpl; [assumption |].
  apply IH. now apply uniques_append_NoDup.
Qed.

Lemma fast_unique_NoDup (gen : list (list string)) :
  NoDup (fast_unique_multiple_list_gen gen).
Proof.
  unfold fast_unique_multiple_list_gen.
  assert (H : NoDup (@nil string)) by constructor.
  revert H. generalize (@nil string) as u.
  induction gen as [| b gen IH]; intros u H; simpl; [assumption |].
  apply IH. now apply fold_uniques_NoDup.
Qed.

Lemma lookup_column_Some (cols : list string) (arrs : list (list pyval))
      (k : string) :
  In k cols -> List.length arrs = List.length cols ->
  exists a, lookup_column cols arrs k = Some a /\ In a arrs.
Proof.
  revert arrs. induction cols as [| c cols IH]; intros arrs Hk Hlen;
    [destruct Hk |].
  destruct arrs as [| a arrs]; [discriminate Hlen |]. simpl.
  destruct (String.eqb_spec k c) as [-> | Hne].
  - exists a. split; [reflexivity | now left].
  - destruct Hk as [-> | Hk]; [congruence |].
    destruct (IH arrs Hk) as [a' [E Ha']]; [now injection Hlen |].
    exists a'. split; [exact E | now right].
Qed.

Lemma pd_DataFrame_arrays_length (data : list pydict) :
  List.length (arrays (pd_DataFrame data))
  = List.length (columns (pd_DataFrame data)).
Proof.
  cbn [pd_DataFrame columns arrays]. unfold dicts_to_array_T.
  now rewrite !length_map.
Qed.

Lemma pd_DataFrame_cells_length (data : list pydict) :
  Forall (fun a => List.length a = index (pd_DataFrame data))
         (arrays (pd_DataFrame data)).
Proof.
  cbn [pd_DataFrame columns arrays index]. unfold dicts_to_array_T.
  rewrite map_map. apply Forall_forall.
  intros a Ha. apply in_map_iff in Ha as [col [<- _]].
  now rewrite maybe_convert_length, length_map.
Qed.

End Shape.

(** X3: the frame the first statement builds is rectangular for every list
    of segments, ragged or empty: one array per label, one cell per segment
    in each array, and no label twice. *)
Theorem pd_DataFrame_wf (data : list pydict) : wf_frame (pd_DataFrame data).
Proof.
  unfold wf_frame. split; [| split].
  - apply pd_DataFrame_arrays_length.
  - apply pd_DataFrame_cells_length.
  - apply fast_unique_NoDup.
Qed.

(** X4: selecting distinct labels from a rectangular frame, when it does
    not raise, gives a rectangular frame with the same number of rows. *)
Theorem getitem_wf (df df' : DataFrame) (key : list string) :
  wf_frame df -> NoDup key -> getitem df key = Return df' ->
  wf_frame df' /\ index df' = index df /\ columns df' = key.
Proof.
  intros [Hlen [Hall _]] Hkey Hget.
  destruct (getitem_cases df key) as [[E Hin] | [m [k [E _]]]];
    rewrite E in Hget; [| discriminate Hget].
  injection Hget as <-. cbn [columns index arrays].
  split; [| split; reflexivity].
  unfold wf_frame. cbn [columns index arrays]. split; [| split].
  - apply length_map.
  - apply Forall_forall. intros a Ha. apply in_map_iff in Ha as [k [<- Hk]].
    destruct (lookup_column_Some (columns df) (arrays df) k (Hin k Hk) Hlen)
      as [a [Ea Ha]].
    unfold column. rewrite Ea. rewrite Forall_forall in Hall. now apply Hall.
  - exact Hkey.
Qed.

Lemma getitem_wf_witness :
  exists df',
    getitem (pd_DataFrame (segments Samples.missing_text)) ["end"; "start"]
    = Return df'
    /\ wf_frame df' /\ index df' = 2 /\ columns df' = ["end"; "start"].
Proof.
  eexists. split; [reflexivity |].
  apply (getitem_wf (pd_DataFrame (segments Samples.missing_text))).
  - split; [apply pd_DataFrame_arrays_length |].
    split; [apply pd_DataFrame_cells_length | apply fast_unique_NoDup].
  - repeat constructor; simpl; intuition discriminate.
  - reflexivity.
Defined.

(* ================================================================= *)
(** ** Selecting again, column order and the entries kept *)

Lemma getitem_getitem (df df' : DataFrame) (key : list string) :
  getitem df key = Return df' -> getitem df' key = Return df'.
Proof.
  intros Hget.
  destruct (getitem_cases df key) as [[E _] | [m [k [E _]]]];
    rewrite E in Hget; [| discriminate Hget].
  injection Hget as <-.
  rewrite getitem_Return by (cbn [columns]; auto).
  cbn [columns index arrays]. do 2 f_equal.
  apply map_ext_in. intros k Hk. unfold column at 1. cbn [columns arrays].
  now rewrite (lookup_column_In (column df)).
Qed.

(** X5: the second statement is idempotent.  Once it has run without an
    exception, running it again on the namespace it left raises nothing and
    leaves that namespace as it is. *)
Theorem stmt2_idempotent (ns ns' : Notebook.namespace) :
  Notebook.stmt2 ns = (ns', None) -> Notebook.stmt2 ns' = (ns', None).
Proof.
  unfold Notebook.stmt2, Notebook.load_transcript_df.
  destruct (Notebook.transcript_df ns) as [| df] eqn:Hdf; cbn [bind];
    [discriminate |].
  destruct (getitem df table_columns) as [df' |] eqn:Hget; [| discriminate].
  intros H. injection H as <-. cbn [Notebook.set_transcript_df
                                      Notebook.transcript_df bind].
  now rewrite (getitem_getitem df df' table_columns Hget).
Qed.

Lemma stmt2_idempotent_witness :
  Notebook.stmt2
    (Notebook.set_transcript_df
       {| Notebook.result := Notebook.Bound (Some Samples.apache);
          Notebook.transcript_df :=
            Notebook.Bound (pd_DataFrame (segments Samples.apache)) |}
       (projected (segments Samples.apache)))
  = (Notebook.set_transcript_df
       {| Notebook.result := Notebook.Bound (Some Samples.apache);
          Notebook.transcript_df :=
            Notebook.Bound (pd_DataFrame (segments Samples.apache)) |}
       (projected (segments Samples.apache)), None).
Proof.
  apply (stmt2_idempotent
           {| Notebook.result := Notebook.Bound (Some Samples.apache);
              Notebook.transcript_df :=
                Notebook.Bound (pd_DataFrame (segments Samples.apache)) |}).
  reflexivity.
Defined.

(** X6: when all segments have the same keys in the same order, as the
    segments whisper builds do, the columns of the frame the first statement
    builds are those keys in that order. *)
Theorem columns_uniform_keys (data : list pydict) (ks : list string) :
  data <> [] -> NoDup ks -> Forall (fun d => dict_keys d = ks) data ->
  columns (pd_DataFrame data) = ks.
Proof.
  intros Hne Hks Hall. destruct data as [| d rest]; [congruence |].
  cbn [pd_DataFrame columns]. unfold fast_unique_multiple_list_gen.
  inversion Hall as [| d' rest' Hd Hrest]; subst. simpl.
  rewrite (fold_uniques_fresh (dict_keys d) []) by exact Hks. simpl.
  clear Hne Hall. induction rest as [| d' rest IH]; [reflexivity |].
  inversion Hrest as [| d'' rest'' Hd' Hrest']; subst. simpl.
  rewrite Hd', fold_uniques_seen by apply incl_refl. now apply IH.
Qed.

Lemma columns_uniform_keys_witness :
  columns (pd_DataFrame (segments Samples.apache))
  = ["id"; "seek"; "start"; "end"; "text"; "tokens"; "temperature";
     "no_speech_prob"].
Proof.
  apply columns_uniform_keys.
  - discriminate.
  - repeat constructor; simpl; intuition discriminate.
  - repeat constructor.
Defined.

Lemma lookup_pd_DataFrame (segs : list Segment) (k : string) :
  carried segs k ->
  lookup_column (columns (pd_DataFrame segs)) (arrays (pd_DataFrame segs)) k
  = Some (maybe_convert_objects (map (dict_cell k) segs)).
Proof.
  intros Hc. apply columns_pd_DataFrame in Hc.
  cbn [pd_DataFrame columns arrays] in *.
  unfold dicts_to_array_T. rewrite map_map.
  now rewrite (lookup_column_In
                 (fun col => maybe_convert_objects (map (dict_cell col) segs))).
Qed.

(** X7: the first statement drops nothing.  Every entry of every segment has
    its cell in the frame it builds, at the segment's row and under the
    entry's key, holding the entry's value, as it is or taken to [float64]
    by the conversion of its column. *)
Theorem pd_DataFrame_keeps_entries
        (segs : list Segment) (i : nat) (s : Segment) (k : string) (v : pyval) :
  nth_error segs i = Some s -> dict_get s k = Some v ->
  exists c, at_ (pd_DataFrame segs) i k = Some c
            /\ (c = v \/ c = to_float64 v).
Proof.
  intros Hi Hk.
  assert (Hc : carried segs k).
  { exists s. split; [eapply nth_error_In, Hi | congruence]. }
  assert (Hlt : i < List.length segs) by (apply nth_error_Some; congruence).
  assert (Ev : dict_cell k s = v) by (unfold dict_cell; now rewrite Hk).
  exists (nth i (maybe_convert_objects (map (dict_cell k) segs)) onan).
  split.
  - unfold at_. rewrite lookup_pd_DataFrame by assumption.
    assert (Hb : (i <? index (pd_DataFrame segs))%nat = true)
      by (apply Nat.ltb_lt; exact Hlt).
    rewrite Hb.
    apply nth_error_nth'. now rewrite maybe_convert_length, length_map.
  - rewrite <- Ev, <- (dict_cell_nth segs k i s Hi). apply maybe_convert_nth.
Qed.

Lemma pd_DataFrame_keeps_entries_witness :
  exists c, at_ (pd_DataFrame (segments Samples.apache)) 1 "tokens" = Some c
            /\ (c = PyList [PyInt 50363; PyInt 362]
                \/ c = to_float64 (PyList [PyInt 50363; PyInt 362])).
Proof.
  apply (pd_DataFrame_keeps_entries (segments Samples.apache) 1
           (Samples.whisper_seg 4 21 22 " Nope.")); reflexivity.
Defined.

(* ================================================================= *)
(** ** The display cell and the notebook run top to bottom *)

Lemma row_at_head (df : DataFrame) (n i : nat) :
  i < n -> row_at (head df n) i = row_at df i.
Proof.
  intros Hi. unfold row_at, head. cbn [arrays]. rewrite map_map.
  apply map_ext. intros a. rewrite nth_firstn.
  apply Nat.ltb_lt in Hi. now rewrite Hi.
Qed.

Lemma rows_head (df : DataFrame) (n : nat) :
  rows (head df n) = firstn n (rows df).
Proof.
  apply nth_error_ext. intros i.
  rewrite nth_error_firstn, !rows_nth_error. unfold itertuple.
  cbn [head index].
  destruct (Nat.ltb_spec i n) as [Hn | Hn].
  - destruct (Nat.ltb_spec i (index df)) as [Hi | Hi].
    + assert (Hm : (i <? Nat.min n (index df))%nat = true)
        by (apply Nat.ltb_lt; lia).
      rewrite Hm. f_equal. now apply row_at_head.
    + assert (Hm : (i <? Nat.min n (index df))%nat = false)
        by (apply Nat.ltb_ge; lia).
      now rewrite Hm.
  - assert (Hm : (i <? Nat.min n (index df))%nat = false)
      by (apply Nat.ltb_ge; lia).
    now rewrite Hm.
Qed.

(** X8: the display cell shows the first five rows of the frame, in order
    and unchanged, under the frame's own columns; it shows all the rows when
    the frame has five or fewer. *)
Theorem head_rows (df : DataFrame) :
  columns (head df 5) = columns df
  /\ rows (head df 5) = firstn 5 (rows df)
  /\ List.length (rows (head df 5)) = Nat.min 5 (index df)
  /\ (index df <= 5 -> rows (head df 5) = rows df).
Proof.
  split; [reflexivity |]. split; [apply rows_head |].
  split; [apply rows_length |].
  intros Hle. rewrite rows_head. apply firstn_all2. now rewrite rows_length.
Qed.

Section RunAll.
Import Notebook Session.

Variable transcribe : string -> string + TranscriptionResult.
Variable path : string.
Variable k : kernel.
Variable r : TranscriptionResult.
Hypothesis Htranscribed : transcribe path = inr r.

(** After the first cell: [result] is the transcription, its text is
    printed, [transcript_df] is what it was. *)
Lemma transcribe_cell_returns :
  transcribe_cell transcribe path k
  = ({| names := set_result (names k) r; stdout := stdout k ++ [text r] |}, None).
Proof.
  unfold transcribe_cell. now rewrite Htranscribed.
Qed.

Lemma projection_cell_project (k1 : kernel) :
  result (names k1) = Bound (Some r) ->
  projection_cell k1
  = match project (Some r) with
    | Return df =>
        ({| names := set_transcript_df (names k1) df; stdout := stdout k1 |}, None)
    | Raise e =>
        ({| names := set_transcript_df (names k1) (pd_DataFrame (segments r));
            stdout := stdout k1 |}, Some (Python e))
    end.
Proof.
  intros Hr. unfold projection_cell. rewrite run_cell_eq, Hr, project_Some.
  now destruct (getitem (pd_DataFrame (segments r)) table_columns).
Qed.

End RunAll.

(** X9: when [model.transcribe] returns a valid result with at least one
    segment, the notebook run top to bottom, from any kernel state, prints
    the full text, binds [transcript_df] to the projected table and shows
    the rows of the first five segments under the three columns. *)
Theorem run_all_valid
        (transcribe : string -> string + TranscriptionResult) (path : string)
        (k : Session.kernel) (r : TranscriptionResult) :
  transcribe path = inr r -> valid_result r -> segments r <> [] ->
  exists shown,
    Session.run_all transcribe path k
    = ({| Session.names :=
            {| Notebook.result := Notebook.Bound (Some r);
               Notebook.transcript_df :=
                 Notebook.Bound (projected (segments r)) |};
          Session.stdout := Session.stdout k ++ [text r] |},
       inr shown)
    /\ columns shown = ["start"; "end"; "text"]
    /\ rows shown = map segment_row (firstn 5 (segments r)).
Proof.
  intros Ht Hv Hne. exists (head (projected (segments r)) 5).
  split; [| split].
  - unfold Session.run_all.
    rewrite (transcribe_cell_returns transcribe path k r Ht).
    rewrite (projection_cell_project r) by reflexivity.
    rewrite (project_carried r (valid_result_carried r Hv Hne)).
    reflexivity.
  - reflexivity.
  - now rewrite rows_head, projected_rows_valid, firstn_map.
Qed.

Lemma run_all_valid_witness :
  exists shown,
    Session.run_all (fun _ => inr Samples.odd_times) "data/apache.mp4"
      {| Session.names := {| Notebook.result := Notebook.Unbound;
                             Notebook.transcript_df := Notebook.Unbound |};
         Session.stdout := [] |}
    = ({| Session.names :=
            {| Notebook.result := Notebook.Bound (Some Samples.odd_times);
               Notebook.transcript_df :=
                 Notebook.Bound (projected (segments Samples.odd_times)) |};
          Session.stdout := ["x x y"] |},
       inr shown)
    /\ columns shown = ["start"; "end"; "text"]
    /\ rows shown = map segment_row (firstn 5 (segments Samples.odd_times)).
Proof.
  apply (run_all_valid (fun _ => inr Samples.odd_times) "data/apache.mp4"
           {| Session.names := {| Notebook.result := Notebook.Unbound;
                                  Notebook.transcript_df := Notebook.Unbound |};
              Session.stdout := [] |} Samples.odd_times).
  - reflexivity.
  - reflexivity.
  - discriminate.
Defined.

(** X10: when [model.transcribe] returns a result in which some table column
    is an entry of no segment (a result without segments is one), the run
    top to bottom prints the text and stops in the projection cell with
    [KeyError] for those columns; nothing is shown, and [transcript_df] is
    left bound to the frame of all the segments' entries. *)
Theorem run_all_KeyError
        (transcribe : string -> string + TranscriptionResult) (path : string)
        (k : Session.kernel) (r : TranscriptionResult) :
  transcribe path = inr r -> uncarried (segments r) <> [] ->
  Session.run_all transcribe path k
  = ({| Session.names :=
          {| Notebook.result := Notebook.Bound (Some r);
             Notebook.transcript_df :=
               Notebook.Bound (pd_DataFrame (segments r)) |};
        Session.stdout := Session.stdout k ++ [text r] |},
     inl (Session.Python (KeyError (uncarried (segments r))))).
Proof.
  intros Ht Hm. unfold Session.run_all.
  rewrite (transcribe_cell_returns transcribe path k r Ht).
  rewrite (projection_cell_project r) by reflexivity.
  rewrite project_uncarried.
  destruct (uncarried (segments r)) as [| m ms]; [congruence | reflexivity].
Qed.

Lemma run_all_KeyError_witness :
  Session.run_all (fun _ => inr Samples.no_segments) "data/silence.mp4"
    {| Session.names := {| Notebook.result := Notebook.Unbound;
                           Notebook.transcript_df := Notebook.Unbound |};
       Session.stdout := [] |}
  = ({| Session.names :=
          {| Notebook.result := Notebook.Bound (Some Samples.no_segments);
             Notebook.transcript_df :=
               Notebook.Bound {| columns := []; index := 0; arrays := [] |} |};
        Session.stdout := [""] |},
     inl (Session.Python (KeyError ["start"; "end"; "text"]))).
Proof.
  apply (run_all_KeyError (fun _ => inr Samples.no_segments) "data/silence.mp4"
           {| Session.names := {| Notebook.result := Notebook.Unbound;
                                  Notebook.transcript_df := Notebook.Unbound |};
              Session.stdout := [] |} Samples.no_segments).
  - reflexivity.
  - discriminate.
Defined.

(* ================================================================= *)
(** ** The cell on the store: what it reads and what it allocates *)

Section StoreGrowth.
Import Heap.

Lemma deref_app (st ext : store) (l : loc) (o : object) :
  deref st l = Some o -> deref (st ++ ext) l = Some o.
Proof.
  unfold deref. intros H. rewrite nth_error_app1; [exact H |].
  apply nth_error_Some. congruence.
Qed.

Lemma deref_alloc (st : store) (o : object) :
  deref (st ++ [o]) (List.length st) = Some o.
Proof.
  unfold deref. rewrite nth_error_app2 by lia.
  now rewrite Nat.sub_diag.
Qed.

Lemma deref_fresh (st : store) (l : loc) (o : object) :
  deref st l = Some o -> l < List.length st.
Proof.
  unfold deref. intros H. apply nth_error_Some. congruence.
Qed.

Lemma h_records_app (st ext : store) (items : list hval)
      (ds : list (list (string * hval))) :
  h_records st items = Some ds -> h_records (st ++ ext) items = Some ds.
Proof.
  revert ds. induction items as [| v items IH]; intros ds H; [exact H |].
  simpl in *. destruct v as [| | | | l]; try discriminate.
  destruct (deref st l) as [[| d |] |] eqn:El; try discriminate.
  destruct (h_records st items) as [ds' |]; [| discriminate].
  rewrite (deref_app st ext l _ El), (IH ds' eq_refl). exact H.
Qed.

(** The frame built from a list of dicts stays the same when the store
    grows. *)
Lemma frame_of_app (st ext : store) (data : hval) (frame : object) :
  frame_of st data = Some frame -> frame_of (st ++ ext) data = Some frame.
Proof.
  unfold frame_of. destruct data as [| | | | l]; try discriminate; [auto |].
  destruct (deref st l) as [[items | |] |] eqn:El; try discriminate.
  destruct (h_records st items) as [ds |] eqn:Er; [| discriminate].
  now rewrite (deref_app st ext l _ El), (h_records_app st ext items ds Er).
Qed.

Lemma frame_of_OFrame (st : store) (data : hval) (frame : object) :
  frame_of st data = Some frame ->
  exists cols idx arrs, frame = OFrame cols idx arrs.
Proof.
  unfold frame_of. destruct data as [| | | | l]; try discriminate.
  - intros H. injection H as <-. eauto.
  - destruct (deref st l) as [[items | |] |]; try discriminate.
    destruct (h_records st items); [| discriminate].
    intros H. injection H as <-. eauto.
Qed.

(** A subscript leaves the store as it is, and gives the same on a store
    that has grown. *)
Lemma subscript_Done (st st' : store) (v x : hval) (key : string) :
  subscript st v key = Done st' x ->
  st' = st /\ forall ext, subscript (st ++ ext) v key = Done (st ++ ext) x.
Proof.
  unfold subscript. destruct v as [| | | | l]; try discriminate.
  destruct (deref st l) as [[| d |] |] eqn:El; try discriminate.
  destruct (h_entry d key) as [y |] eqn:Ek; [| discriminate].
  intros H. injection H as <- <-. split; [reflexivity |].
  intros ext. now rewrite (deref_app st ext l _ El), Ek.
Qed.

Lemma subscript_Raised (st st' : store) (v : hval) (key : string) (e : pyerror) :
  subscript st v key = Raised st' e ->
  st' = st /\ forall ext, subscript (st ++ ext) v key = Raised (st ++ ext) e.
Proof.
  unfold subscript.
  destruct v as [| | | | l];
    try (intros H; injection H as <- <-; split; [reflexivity | reflexivity]).
  destruct (deref st l) as [[| d |] |] eqn:El; try discriminate.
  - intros H. injection H as <- <-. split; [reflexivity |].
    intros ext. now rewrite (deref_app st ext l _ El).
  - destruct (h_entry d key) as [y |] eqn:Ek; [discriminate |].
    intros H. injection H as <- <-. split; [reflexivity |].
    intros ext. now rewrite (deref_app st ext l _ El), Ek.
Qed.

(** The run, once the segments and the frame built from them are known. *)
Lemma h_project_build (st : store) (v segs : hval) (full : object) :
  subscript st v "segments" = Done st segs ->
  frame_of st segs = Some full ->
  h_project st v
  = match selection full table_columns with
    | Some (Return table) =>
        Done (st ++ [full; table]) (HRef (S (List.length st)))
    | Some (Raise e) => Raised (st ++ [full]) e
    | None => Stuck
    end.
Proof.
  intros Hs Hf. unfold h_project. rewrite Hs. cbn [and_then].
  unfold h_DataFrame. rewrite Hf. cbn [alloc and_then].
  unfold h_getitem. rewrite deref_alloc.
  destruct (selection full table_columns) as [[table | e] |]; try reflexivity.
  cbn [alloc]. rewrite <- app_assoc, length_app. cbn [List.length app].
  now rewrite Nat.add_1_r.
Qed.

(** Every way the run can end. *)
Lemma h_project_cases (st : store) (v : hval) :
  (exists e, subscript st v "segments" = Raised st e
             /\ h_project st v = Raised st e)
  \/ (exists segs full,
        subscript st v "segments" = Done st segs
        /\ frame_of st segs = Some full
        /\ ((exists table, selection full table_columns = Some (Return table)
                           /\ h_project st v
                              = Done (st ++ [full; table])
                                     (HRef (S (List.length st))))
            \/ (exists e, selection full table_columns = Some (Raise e)
                          /\ h_project st v = Raised (st ++ [full]) e)))
  \/ h_project st v = Stuck.
Proof.
  destruct (subscript st v "segments") as [st1 segs | st1 e |] eqn:Hs.
  - destruct (subscript_Done _ _ _ _ _ Hs) as [-> _].
    destruct (frame_of st segs) as [full |] eqn:Hf.
    + right. left. exists segs, full. split; [reflexivity |].
      split; [exact Hf |].
      rewrite (h_project_build st v segs full Hs Hf).
      destruct (frame_of_OFrame _ _ _ Hf) as [cols [idx [arrs ->]]].
      cbn [selection].
      destruct (filter _ table_columns); [left | right]; eauto.
    + right. right. unfold h_project. rewrite Hs. cbn [and_then].
      unfold h_DataFrame. now rewrite Hf.
  - destruct (subscript_Raised _ _ _ _ _ Hs) as [-> _].
    left. exists e. split; [reflexivity |].
    unfold h_project. now rewrite Hs.
  - right. right. unfold h_project. now rewrite Hs.
Qed.

End StoreGrowth.

(* ================================================================= *)
(** ** The run on the store computes the projection *)

Section Refinement.
Import Heap.

(** Values are read the same on a store that has grown. *)
Lemma reads_app (st ext : store) :
  forall v pv, reads st v pv -> reads (st ++ ext) v pv.
Proof.
  fix IH 3. intros v pv H. destruct H as [| z | f | s | l items vs Hl Hitems].
  - constructor.
  - constructor.
  - constructor.
  - constructor.
  - apply (reads_List _ l items vs); [now apply deref_app |].
    clear Hl. revert items vs Hitems. fix IHl 3. intros items vs Hitems.
    destruct Hitems as [| x y xs ys Hxy Hrest]; constructor.
    + apply IH, Hxy.
    + apply IHl, Hrest.
Qed.

Lemma reads_all_app (st ext : store) (vs : list hval) (pvs : list pyval) :
  Forall2 (reads st) vs pvs -> Forall2 (reads (st ++ ext)) vs pvs.
Proof.
  induction 1; constructor; [now apply reads_app | assumption].
Qed.

Lemma reads_arrays_app (st ext : store) (arrs : list (list hval))
      (parrs : list (list pyval)) :
  Forall2 (Forall2 (reads st)) arrs parrs ->
  Forall2 (Forall2 (reads (st ++ ext))) arrs parrs.
Proof.
  induction 1; constructor; [now apply reads_all_app | assumption].
Qed.

Variable st : store.

Lemma reads_entries_keys (d : list (string * hval)) (s : Segment) :
  Forall2 (reads_entry st) d s -> map fst d = dict_keys s.
Proof.
  unfold dict_keys. induction 1 as [| e e' d s [Hk _] _ IH]; [reflexivity |].
  simpl. now rewrite Hk, IH.
Qed.

Lemma reads_cell (col : string) (d : list (string * hval)) (s : Segment) :
  Forall2 (reads_entry st) d s ->
  reads st (h_cell col d) (dict_cell col s).
Proof.
  unfold h_cell, dict_cell.
  induction 1 as [| [k v] [k' pv] d s [Hk Hv] _ IH]; simpl in *.
  - constructor.
  - subst k'. destruct (String.eqb col k); [exact Hv | exact IH].
Qed.

Lemma reads_records (items : list hval) (segs : list Segment) :
  Forall2 (reads_segment st) items segs ->
  exists ds, h_records st items = Some ds
             /\ Forall2 (Forall2 (reads_entry st)) ds segs.
Proof.
  induction 1 as [| item s items segs [l [d [-> [Hl Hd]]]] _ [ds [E IH]]].
  - exists []. split; [reflexivity | constructor].
  - exists (d :: ds). simpl. rewrite Hl, E.
    split; [reflexivity | now constructor].
Qed.

Lemma reads_classify (v : hval) (pv : pyval) :
  reads st v pv -> h_classify v = classify pv.
Proof. now destruct 1. Qed.

Lemma reads_to_float64 (v : hval) (pv : pyval) :
  reads st v pv -> reads st (h_to_float64 v) (to_float64 pv).
Proof.
  destruct 1; simpl; try constructor. econstructor; eassumption.
Qed.

Lemma reads_maybe_convert (cells : list hval) (pvs : list pyval) :
  Forall2 (reads st) cells pvs ->
  Forall2 (reads st) (h_maybe_convert_objects cells)
          (maybe_convert_objects pvs).
Proof.
  intros H. unfold h_maybe_convert_objects, maybe_convert_objects.
  assert (Htags : map h_classify cells = map classify pvs).
  { induction H as [| v pv cells pvs Hv _ IH]; [reflexivity |].
    simpl. now rewrite (reads_classify v pv Hv), IH. }
  rewrite Htags. destruct (becomes_float64 (map classify pvs)); [| exact H].
  clear Htags. induction H as [| v pv cells pvs Hv _ IH]; simpl; constructor;
    [now apply reads_to_float64 | exact IH].
Qed.

Lemma reads_column_cells (col : string)
      (ds : list (list (string * hval))) (segs : list Segment) :
  Forall2 (Forall2 (reads_entry st)) ds segs ->
  Forall2 (reads st) (map (h_cell col) ds) (map (dict_cell col) segs).
Proof.
  induction 1; simpl; constructor; [now apply reads_cell | assumption].
Qed.

Lemma reads_lookup_column (cols : list string) (k : string)
      (arrs : list (list hval)) (parrs : list (list pyval)) :
  Forall2 (Forall2 (reads st)) arrs parrs ->
  Forall2 (reads st) (h_column cols arrs k)
          (column {| columns := cols; index := 0; arrays := parrs |} k).
Proof.
  unfold h_column, column. cbn [columns arrays].
  intros H. revert cols. induction H as [| a pa arrs parrs Ha _ IH];
    intros [| c cols]; simpl; try constructor.
  destruct (String.eqb k c); [exact Ha | apply IH].
Qed.

Lemma reads_records_keys (ds : list (list (string * hval)))
      (segs : list Segment) :
  Forall2 (Forall2 (reads_entry st)) ds segs ->
  map (map fst) ds = map dict_keys segs.
Proof.
  induction 1 as [| d s ds segs Hd _ IH]; [reflexivity |].
  simpl. now rewrite (reads_entries_keys d s Hd), IH.
Qed.

(** The frame built on the store is the frame of the values read. *)
Lemma frame_of_refines (sv : hval) (segs : list Segment) :
  reads_segments st sv segs ->
  exists arrs,
    frame_of st sv
    = Some (OFrame (columns (pd_DataFrame segs)) (index (pd_DataFrame segs)) arrs)
    /\ Forall2 (Forall2 (reads st)) arrs (arrays (pd_DataFrame segs)).
Proof.
  intros [l [items [-> [Hl Hitems]]]].
  destruct (reads_records items segs Hitems) as [ds [Er Hds]].
  pose proof (reads_records_keys ds segs Hds) as Hkeys.
  eexists. split.
  - unfold frame_of. rewrite Hl, Er, Hkeys.
    rewrite (Forall2_length Hitems). reflexivity.
  - cbn [pd_DataFrame arrays]. unfold dicts_to_array_T. rewrite map_map.
    induction (fast_unique_multiple_list_gen (map dict_keys segs))
      as [| col cols IH]; simpl; constructor; [| exact IH].
    now apply reads_maybe_convert, reads_column_cells.
Qed.

(** The selection on the store is the selection on the values read. *)
Lemma selection_refines (df : DataFrame) (arrs : list (list hval))
      (key : list string) :
  Forall2 (Forall2 (reads st)) arrs (arrays df) ->
  match getitem df key with
  | Return df' =>
      exists arrs',
        selection (OFrame (columns df) (index df) arrs) key
        = Some (Return (OFrame (columns df') (index df') arrs'))
        /\ Forall2 (Forall2 (reads st)) arrs' (arrays df')
  | Raise e =>
      selection (OFrame (columns df) (index df) arrs) key = Some (Raise e)
  end.
Proof.
  intros H. unfold getitem, selection.
  destruct (filter (fun k => negb (mem k (columns df))) key); [| reflexivity].
  eexists. split; [reflexivity |]. cbn [arrays].
  induction key as [| k key IH]; simpl; constructor; [| exact IH].
  destruct df as [cols idx parrs]. cbn [columns arrays] in *.
  apply (reads_lookup_column cols k arrs parrs H).
Qed.

End Refinement.

Section ReadsGrowth.
Import Heap.

Variables st ext : store.




Lemma reads_frame_app (v : hval) (df : DataFrame) :
  reads_frame st v df -> reads_frame (st ++ ext) v df.
Proof.
  intros [l [arrs [-> [Hl Harrs]]]]. exists l, arrs.
  split; [reflexivity |]. split; [now apply deref_app |].
  now apply reads_arrays_app.
Qed.

End ReadsGrowth.

Section RunOnStore.
Import Heap.

(** When the store holds a transcription result (or [None]) under [v], the
    run on the store ends as [project] says: with the same exception, or
    with a reference to a new frame that holds the projected table. *)
Lemma h_project_refines (st : store) (v : hval)
      (res : option TranscriptionResult) :
  reads_result st v res ->
  match project res with
  | Return df =>
      exists full table,
        h_project st v
        = Done (st ++ [full; table]) (HRef (S (List.length st)))
        /\ reads_frame (st ++ [full; table]) (HRef (S (List.length st))) df
  | Raise e => exists st', h_project st v = Raised st' e
  end.
Proof.
  destruct res as [r |]; cbn [reads_result].
  - intros [l [d [sv [-> [Hl [_ [Hs Hsegs]]]]]]].
    assert (Hsub : subscript st (HRef l) "segments" = Done st sv)
      by (unfold subscript; now rewrite Hl, Hs).
    destruct (frame_of_refines st sv (segments r) Hsegs) as [arrs [Hf Harrs]].
    rewrite (h_project_build st (HRef l) sv _ Hsub Hf), project_Some.
    pose proof (selection_refines st (pd_DataFrame (segments r)) arrs
                                  table_columns Harrs) as Hsel.
    destruct (getitem (pd_DataFrame (segments r)) table_columns)
      as [df | e].
    + destruct Hsel as [arrs' [Hsel Harrs']]. rewrite Hsel.
      eexists. eexists. split; [reflexivity |].
      exists (S (List.length st)), arrs'. split; [reflexivity |]. split.
      * change (st ++ [OFrame (columns (pd_DataFrame (segments r)))
                              (index (pd_DataFrame (segments r))) arrs;
                       OFrame (columns df) (index df) arrs'])
          with (st ++ ([OFrame (columns (pd_DataFrame (segments r)))
                               (index (pd_DataFrame (segments r))) arrs]
                       ++ [OFrame (columns df) (index df) arrs'])).
        rewrite app_assoc.
        replace (S (List.length st))
          with (List.length
                  (st ++ [OFrame (columns (pd_DataFrame (segments r)))
                                 (index (pd_DataFrame (segments r))) arrs]))
          by (rewrite length_app; simpl; lia).
        apply deref_alloc.
      * apply reads_arrays_app, Harrs'.
    + rewrite Hsel. eexists. reflexivity.
  - intros ->. eexists. reflexivity.
Qed.

(** A run that ends only adds objects to the store, and run again on a
    store that has grown it builds the same objects again. *)
Lemma h_project_again (st ext : store) (v : hval) :
  match h_project st v with
  | Done st1 f =>
      exists full table,
        st1 = st ++ [full; table] /\ f = HRef (S (List.length st))
        /\ h_project (st ++ ext) v
           = Done ((st ++ ext) ++ [full; table])
                  (HRef (S (List.length (st ++ ext))))
  | Raised st1 e =>
      exists fresh,
        st1 = st ++ fresh
        /\ h_project (st ++ ext) v = Raised ((st ++ ext) ++ fresh) e
  | Stuck => True
  end.
Proof.
  destruct (h_project_cases st v)
    as [[e [Hs E]] | [[segs [full [Hs [Hf [[table [Hsel E]] | [e [Hsel E]]]]]]] | E]];
    rewrite E; [| | | exact I].
  - exists []. rewrite !app_nil_r. split; [reflexivity |].
    destruct (subscript_Raised _ _ _ _ _ Hs) as [_ Hext].
    unfold h_project. now rewrite Hext.
  - exists full, table. split; [reflexivity |]. split; [reflexivity |].
    destruct (subscript_Done _ _ _ _ _ Hs) as [_ Hext].
    rewrite (h_project_build (st ++ ext) v segs full (Hext ext)
               (frame_of_app st ext segs full Hf)).
    now rewrite Hsel.
  - exists [full]. split; [reflexivity |].
    destruct (subscript_Done _ _ _ _ _ Hs) as [_ Hext].
    rewrite (h_project_build (st ++ ext) v segs full (Hext ext)
               (frame_of_app st ext segs full Hf)).
    now rewrite Hsel.
Qed.

End RunOnStore.

(* ================================================================= *)
(** ** Two runs, and the objects a run leaves alone *)

Section StoreSamples.
Import Heap HeapSamples.

Lemma deref_second (st : store) (a b : object) :
  deref (st ++ [a; b]) (S (List.length st)) = Some b.
Proof.
  unfold deref. rewrite nth_error_app2 by lia.
  now replace (S (List.length st) - List.length st) with 1 by lia.
Qed.

Lemma apache_store_reads :
  reads_result apache_store apache_result (Some Samples.apache).
Proof.
  assert (Htokens : reads apache_store (HRef 0)
                          (PyList [PyInt 50363; PyInt 362])).
  { apply (reads_List _ 0 [HInt 50363; HInt 362]); [reflexivity |].
    repeat constructor. }
  eexists 4, _, (HRef 3). split; [reflexivity |]. split; [reflexivity |].
  split; [reflexivity |]. split; [reflexivity |].
  eexists 3, _. split; [reflexivity |]. split; [reflexivity |].
  constructor; [| constructor; [| constructor]].
  - eexists 1, _. split; [reflexivity |]. split; [reflexivity |].
    repeat (constructor;
            [split; [reflexivity | first [exact Htokens | constructor]] |]).
    constructor.
  - eexists 2, _. split; [reflexivity |]. split; [reflexivity |].
    repeat (constructor;
            [split; [reflexivity | first [exact Htokens | constructor]] |]).
    constructor.
Qed.

Lemma silent_store_reads :
  reads_result silent_store silent_result (Some Samples.no_segments).
Proof.
  eexists 1, _, (HRef 0). split; [reflexivity |]. split; [reflexivity |].
  split; [reflexivity |]. split; [reflexivity |].
  eexists 0, _. split; [reflexivity |]. split; [reflexivity |]. constructor.
Qed.

End StoreSamples.

(** C7: take a store that holds a transcription result under [result].  The
    cell's two statements, run on it, end as [project] says.  Run a second
    time on the same [result], after the first run and after any further
    allocations, they end the same way: with the same exception, or with a
    reference to another new frame, a different object from the first one
    and equal to it, both holding the projected table.  The first run has
    changed the store (two more frames are in it), the second does not
    notice. *)
Theorem h_project_twice (st : Heap.store) (v : Heap.hval)
        (res : option TranscriptionResult) :
  Heap.reads_result st v res ->
  match project res with
  | Return df =>
      exists st1 l1,
        Heap.h_project st v = Heap.Done st1 (Heap.HRef l1)
        /\ forall later, exists st2 l2 frame,
             Heap.h_project (st1 ++ later) v = Heap.Done st2 (Heap.HRef l2)
             /\ l1 <> l2
             /\ Heap.deref st2 l1 = Some frame
             /\ Heap.deref st2 l2 = Some frame
             /\ Heap.reads_frame st2 (Heap.HRef l1) df
             /\ Heap.reads_frame st2 (Heap.HRef l2) df
  | Raise e =>
      exists st1,
        Heap.h_project st v = Heap.Raised st1 e
        /\ forall later, exists st2,
             Heap.h_project (st1 ++ later) v = Heap.Raised st2 e
  end.
Proof.
  intros Hres. pose proof (h_project_refines st v res Hres) as Hrun.
  destruct (project res) as [df | e].
  - destruct Hrun as [full [table [E Hframe]]].
    exists (st ++ [full; table]), (S (List.length st)).
    split; [exact E |]. intros later.
    pose proof (h_project_again st ([full; table] ++ later) v) as Hagain.
    rewrite E in Hagain.
    destruct Hagain as [full' [table' [Hst [_ E2]]]].
    apply app_inv_head in Hst. injection Hst as <- <-.
    rewrite app_assoc in E2.
    destruct Hframe as [l [arrs [Hl [Hd Harrs]]]]. injection Hl as <-.
    rewrite deref_second in Hd. injection Hd as ->.
    eexists. eexists. exists (Heap.OFrame (columns df) (index df) arrs).
    split; [exact E2 |].
    split; [rewrite !length_app; simpl; lia |].
    assert (H1 : Heap.deref
                   (((st ++ [full; Heap.OFrame (columns df) (index df) arrs])
                     ++ later)
                    ++ [full; Heap.OFrame (columns df) (index df) arrs])
                   (S (List.length st))
                 = Some (Heap.OFrame (columns df) (index df) arrs))
      by (rewrite <- app_assoc; apply deref_app, deref_second).
    split; [exact H1 |]. split; [apply deref_second |].
    assert (Harrs2 : Forall2 (Forall2 (Heap.reads
                   (((st ++ [full; Heap.OFrame (columns df) (index df) arrs])
                     ++ later)
                    ++ [full; Heap.OFrame (columns df) (index df) arrs])))
                   arrs (arrays df))
      by (rewrite <- app_assoc; now apply reads_arrays_app).
    split.
    + exists (S (List.length st)), arrs. now repeat split.
    + eexists. exists arrs. split; [reflexivity |].
      split; [apply deref_second | exact Harrs2].
  - destruct Hrun as [st1 E]. exists st1. split; [exact E |]. intros later.
    pose proof (h_project_again st [] v) as H0. rewrite E in H0.
    destruct H0 as [fresh [-> _]].
    pose proof (h_project_again st (fresh ++ later) v) as Hagain.
    rewrite E in Hagain. destruct Hagain as [fresh' [_ E2]].
    rewrite app_assoc in E2. eexists. exact E2.
Qed.

Lemma h_project_twice_witness :
  exists st1 l1,
    Heap.h_project HeapSamples.apache_store HeapSamples.apache_result
    = Heap.Done st1 (Heap.HRef l1)
    /\ forall later, exists st2 l2 frame,
         Heap.h_project (st1 ++ later) HeapSamples.apache_result
         = Heap.Done st2 (Heap.HRef l2)
         /\ l1 <> l2
         /\ Heap.deref st2 l1 = Some frame
         /\ Heap.deref st2 l2 = Some frame
         /\ Heap.reads_frame st2 (Heap.HRef l1)
                             (projected (segments Samples.apache))
         /\ Heap.reads_frame st2 (Heap.HRef l2)
                             (projected (segments Samples.apache)).
Proof.
  exact (h_project_twice HeapSamples.apache_store HeapSamples.apache_result
                         (Some Samples.apache) apache_store_reads).
Defined.


